(** * Verification of the chat session hook and the chart normalizer of
    agentic-dashboard ([src/hooks/useChat.ts], [src/components/DataExplorer.tsx],
    [src/components/GraphViewer.tsx]).

    The TypeScript code is embedded shallowly: loosely typed JSON payloads
    become [jsval], JavaScript objects become association lists whose key
    order is the insertion order of the engine, React state becomes one
    record [ChatState] threaded through the handlers, and every handler
    is a function from state to state. *)

From Stdlib Require Import String Ascii List Bool Arith ZArith Lia.
Import ListNotations.
Open Scope list_scope.
Open Scope string_scope.
Set Warnings "-register-all".

(* ------------------------------------------------------------------ *)
(** ** JavaScript values and plain objects *)

(** A JSON-like value as delivered by [JSON.parse], plus [undefined]. *)
Inductive jsval : Type :=
| JUndef
| JNull
| JBool (b : bool)
| JNum (z : Z)
| JStr (s : string)
| JArr (l : list jsval)
| JObj (o : list (string * jsval))
(** An array to which the program has written named (non-index)
    properties [props], as [arr[k] = v] does for a key [k] that is not an
    index. [JSON.parse] never produces one. *)
| JArrExt (l : list jsval) (props : list (string * jsval)).

(** A plain object: own enumerable properties in insertion order. *)
Definition obj := list (string * jsval).

(** Property read [o[k]]; a missing own property reads [undefined]. *)
Fixpoint get (k : string) (o : obj) : jsval :=
  match o with
  | [] => JUndef
  | (k', v) :: o' => if String.eqb k k' then v else get k o'
  end.

Fixpoint has_key (k : string) (o : obj) : bool :=
  match o with
  | [] => false
  | (k', _) :: o' => String.eqb k k' || has_key k o'
  end.

(** Property write [o[k] = v]: an existing key keeps its position, a new
    key is appended at the end. *)
Definition set (k : string) (v : jsval) (o : obj) : obj :=
  if has_key k o
  then map (fun '(k', v') => if String.eqb k k' then (k', v) else (k', v')) o
  else (o ++ [(k, v)])%list.

(** Object spread [{...src}] into [dst]: the properties of [src] are
    written one after the other. *)
Definition spread (dst src : obj) : obj :=
  fold_left (fun acc '(k, v) => set k v acc) src dst.

(** Rest pattern [const {a, b, ...rest} = o]: [rest] drops the named keys. *)
Definition omit (ks : list string) (o : obj) : obj :=
  filter (fun '(k, _) => negb (existsb (String.eqb k) ks)) o.

(** Optional chaining read [v?.k] on an arbitrary value. *)
Definition get_opt (k : string) (v : jsval) : jsval :=
  match v with
  | JObj o => get k o
  | JArrExt _ props => get k props
  | _ => JUndef
  end.

(** JavaScript truthiness. Arrays and objects are always truthy. *)
Definition truthy (v : jsval) : bool :=
  match v with
  | JUndef | JNull => false
  | JBool b => b
  | JNum z => negb (Z.eqb z 0)
  | JStr s => negb (String.eqb s "")
  | JArr _ | JObj _ | JArrExt _ _ => true
  end.

(** [typeof v === 'string'] and [v === s] for a string literal [s]. *)
Definition is_string (v : jsval) : bool :=
  match v with JStr _ => true | _ => false end.

Definition js_eq_str (v : jsval) (s : string) : bool :=
  match v with JStr s' => String.eqb s' s | _ => false end.

Definition is_array (v : jsval) : bool :=
  match v with JArr _ | JArrExt _ _ => true | _ => false end.

(* ------------------------------------------------------------------ *)
(** ** String helpers ([String.prototype] methods used by the hook) *)

(** Optional string fields of a payload: [None] stands for [undefined]
    (or [null]); a string is truthy when it is not empty. *)
Definition str_truthy (o : option string) : bool :=
  match o with Some s => negb (String.eqb s "") | None => false end.

(** [a || d] on an optional string. *)
Definition str_or (o : option string) (d : string) : string :=
  match o with Some s => if String.eqb s "" then d else s | None => d end.

(** Template literal interpolation [${x}] of an optional string. *)
Definition interp (o : option string) : string :=
  match o with Some s => s | None => "undefined" end.

Definition nl : string := String (ascii_of_nat 10) EmptyString.

(** Strings are the UTF-8 encodings of the JavaScript strings: a string is
    a sequence of bytes, and a character outside ASCII spans several of
    them. [bytes l] is the string with the byte values [l]. *)
Fixpoint bytes (l : list nat) : string :=
  match l with
  | [] => EmptyString
  | b :: l' => String (ascii_of_nat b) (bytes l')
  end.

(** The characters removed by [String.prototype.trim]: the ECMAScript
    WhiteSpace and LineTerminator code points, each as its UTF-8 bytes.
    U+0009..U+000D, U+0020, U+00A0 (no-break space), U+1680, U+2000..U+200A,
    U+2028, U+2029, U+202F, U+205F, U+3000 and U+FEFF (byte order mark). *)
Definition ws_seqs : list string :=
  [bytes [9]; bytes [10]; bytes [11]; bytes [12]; bytes [13]; bytes [32];
   bytes [194; 160];
   bytes [225; 154; 128];
   bytes [226; 128; 128]; bytes [226; 128; 129]; bytes [226; 128; 130];
   bytes [226; 128; 131]; bytes [226; 128; 132]; bytes [226; 128; 133];
   bytes [226; 128; 134]; bytes [226; 128; 135]; bytes [226; 128; 136];
   bytes [226; 128; 137]; bytes [226; 128; 138];
   bytes [226; 128; 168]; bytes [226; 128; 169]; bytes [226; 128; 175];
   bytes [226; 129; 159];
   bytes [227; 128; 128];
   bytes [239; 187; 191]].

Fixpoint rev_str (s : string) : string :=
  match s with
  | EmptyString => EmptyString
  | String c s' => rev_str s' ++ String c EmptyString
  end.

(** The length of the first sequence of [seqs] that starts [s]. *)
Fixpoint seq_prefix (seqs : list string) (s : string) : option nat :=
  match seqs with
  | [] => None
  | w :: seqs' =>
      if String.prefix w s then Some (String.length w) else seq_prefix seqs' s
  end.

(** Drops leading sequences of [seqs] from [s]; every step removes at least
    one byte, so [String.length s] steps suffice. *)
Fixpoint strip_seqs (fuel : nat) (seqs : list string) (s : string) : string :=
  match fuel with
  | O => s
  | S f =>
      match seq_prefix seqs s with
      | Some n => strip_seqs f seqs (substring n (String.length s - n) s)
      | None => s
      end
  end.

Definition trim_start (s : string) : string :=
  strip_seqs (String.length s) ws_seqs s.

(** [s.trimEnd()]: the leading white space of the reversed string, written
    with the reversed byte sequences. *)
Definition trim_end (s : string) : string :=
  let r := rev_str s in
  rev_str (strip_seqs (String.length r) (List.map rev_str ws_seqs) r).

(** [s.trim()]. *)
Definition trim (s : string) : string := trim_end (trim_start s).

(** [s.substring(i)] and [s.substring(i, j)] for [i <= j]. *)
Definition substring_from (i : nat) (s : string) : string :=
  substring i (String.length s - i) s.

Definition substring_range (i j : nat) (s : string) : string :=
  substring i (j - i) s.

(** [s.indexOf(pat, from)]; [None] is the [-1] of the source. *)
Fixpoint index_from (from : nat) (pat s : string) : option nat :=
  match from with
  | O =>
      if String.prefix pat s then Some 0
      else match s with
           | EmptyString => None
           | String _ s' =>
               match index_from 0 pat s' with
               | Some n => Some (S n)
               | None => None
               end
           end
  | S f =>
      match s with
      | EmptyString => if String.eqb pat "" then Some 0 else None
      | String _ s' =>
          match index_from f pat s' with
          | Some n => Some (S n)
          | None => None
          end
      end
  end.

Definition indexOf (pat s : string) : option nat := index_from 0 pat s.

Definition includes (s pat : string) : bool :=
  match indexOf pat s with Some _ => true | None => false end.

Definition endsWith (s suf : string) : bool :=
  String.prefix (rev_str suf) (rev_str s).

(** [s.replace(/_/g, ' ')]. *)
Fixpoint underscores_to_spaces (s : string) : string :=
  match s with
  | EmptyString => EmptyString
  | String c s' =>
      String (if Ascii.eqb c "_"%char then " "%char else c)
             (underscores_to_spaces s')
  end.

(** Decimal rendering of a natural number, as template literals do. *)
Fixpoint digits_aux (fuel n : nat) (acc : string) : string :=
  match fuel with
  | O => acc
  | S f =>
      let acc' := String (ascii_of_nat (48 + n mod 10)) acc in
      if Nat.ltb n 10 then acc' else digits_aux f (n / 10) acc'
  end.

Definition nat_to_string (n : nat) : string := digits_aux (S n) n EmptyString.

(* ------------------------------------------------------------------ *)
(** ** Data model of [useChat.ts] *)

Inductive Role : Type := RUser | RAssistant | RSystem | RMilestone | RContextInfo.

(** [ChatMessage]. The [id] comes from [generateId], which draws on the
    clock and [Math.random]; here it is a counter kept in the state, so
    that distinct calls give distinct ids. *)
Record ChatMessage : Type := mkMsg {
  id : nat;
  role : Role;
  content : string;
  reasoning : option string;
  reportSections : option (list (string * string));
  generatedQueries : option (list (string * string));
  step : option string
}.

(** A data row [Record<string, unknown>]. Rows come from [JSON.parse], so
    only their own properties are modelled; column names are assumed not
    to name members of [Object.prototype]. *)
Definition row := obj.

(** [QueryResult]. *)
Record QueryResult : Type := mkQR {
  objective : string;
  query : string;
  dataframe : list row;
  error : option string;
  platform : option string
}.

(** One element of [executed_queries]. *)
Record ExecutedQuery : Type := mkEQ {
  eq_platform : option string;
  eq_objective : option string;
  eq_query : option string;
  eq_data : option (list row)
}.

(** [WebSocketMessage]; an absent or [null] field is [None]. A non-string
    [content] behaves like an absent one in the only test that reads it
    ([typeof content === 'string']). *)
Record WebSocketMessage : Type := mkWS {
  ws_type : string;
  ws_user_id : option string;
  ws_step : option string;
  ws_status : option string;
  ws_details : option string;
  ws_reasoning : option string;
  ws_insight : option string;
  ws_report_sections : option (list (string * string));
  ws_graph_suggestions : option (list obj);
  ws_message : option string;
  ws_generated_queries : option (list (string * string));
  ws_objective : option string;
  ws_query : option string;
  ws_data : option (list row);
  ws_error : option string;
  ws_content : option string;
  ws_platform : option string;
  ws_executed_queries : option (list ExecutedQuery)
}.

(** An event with only its [type] set. *)
Definition ws_empty (ty : string) : WebSocketMessage :=
  mkWS ty None None None None None None None None None None None None None
       None None None None.

(** [ReadyState] of [react-use-websocket]. *)
Inductive ReadyState : Type :=
| CONNECTING | OPEN | CLOSING | CLOSED | UNINSTANTIATED.

Definition is_open (r : ReadyState) : bool :=
  match r with OPEN => true | _ => false end.

(** The hook's state: its six [useState] cells, the channel state, the
    id supply behind [generateId], and the lines given to [console.warn]. *)
Record ChatState : Type := mkState {
  userId : option string;
  messages : list ChatMessage;
  queryResults : list QueryResult;
  currentStatus : option string;
  isProcessing : bool;
  graphSuggestions : list obj;
  readyState : ReadyState;
  next_id : nat;
  warnings : list string
}.

(** Record updates, one per [setX] of the source. *)
Definition setMessages (f : list ChatMessage -> list ChatMessage) (st : ChatState) :=
  mkState (userId st) (f (messages st)) (queryResults st) (currentStatus st)
          (isProcessing st) (graphSuggestions st) (readyState st) (next_id st)
          (warnings st).
Definition setQueryResults (f : list QueryResult -> list QueryResult) (st : ChatState) :=
  mkState (userId st) (messages st) (f (queryResults st)) (currentStatus st)
          (isProcessing st) (graphSuggestions st) (readyState st) (next_id st)
          (warnings st).
Definition setCurrentStatus (s : option string) (st : ChatState) :=
  mkState (userId st) (messages st) (queryResults st) s
          (isProcessing st) (graphSuggestions st) (readyState st) (next_id st)
          (warnings st).
Definition setIsProcessing (b : bool) (st : ChatState) :=
  mkState (userId st) (messages st) (queryResults st) (currentStatus st)
          b (graphSuggestions st) (readyState st) (next_id st) (warnings st).
Definition setGraphSuggestions (g : list obj) (st : ChatState) :=
  mkState (userId st) (messages st) (queryResults st) (currentStatus st)
          (isProcessing st) g (readyState st) (next_id st) (warnings st).
Definition setUserId (u : option string) (st : ChatState) :=
  mkState u (messages st) (queryResults st) (currentStatus st)
          (isProcessing st) (graphSuggestions st) (readyState st) (next_id st)
          (warnings st).
Definition setReadyState (r : ReadyState) (st : ChatState) :=
  mkState (userId st) (messages st) (queryResults st) (currentStatus st)
          (isProcessing st) (graphSuggestions st) r (next_id st) (warnings st).
Definition warn (w : string) (st : ChatState) :=
  mkState (userId st) (messages st) (queryResults st) (currentStatus st)
          (isProcessing st) (graphSuggestions st) (readyState st) (next_id st)
          (warnings st ++ [w])%list.

(** [generateId()]: the fresh id and the state with the supply advanced. *)
Definition generateId (st : ChatState) : nat * ChatState :=
  (next_id st,
   mkState (userId st) (messages st) (queryResults st) (currentStatus st)
           (isProcessing st) (graphSuggestions st) (readyState st)
           (S (next_id st)) (warnings st)).

(** [addMessageToChat(role, content, additionalFields)]; the optional
    fields stand for [additionalFields]. *)
Definition addMessageToChat (r : Role) (c : string) (rsn : option string)
    (secs : option (list (string * string))) (stp : option string)
    (st : ChatState) : ChatState :=
  let '(i, st1) := generateId st in
  setMessages (fun prev => (prev ++ [mkMsg i r c rsn secs None stp])%list) st1.

(** The initial state of the hook. *)
Definition initial_state : ChatState :=
  mkState None
    [mkMsg 0 RSystem "Hello! I am your Insight Assistant. Ask me to analyze your data or suggest optimizations." None None None None]
    [] None false [] CONNECTING 1 [].

(* ------------------------------------------------------------------ *)
(** ** Helpers of the hook: [handleExecutedQueries], [handleGraphSuggestions] *)

(** The body of [executedQueries.forEach((executedQuery, index) => ...)]:
    the results pushed and the warnings printed, from position [index]. *)
Fixpoint build_executed (index : nat) (l : list ExecutedQuery)
    : list QueryResult * list string :=
  match l with
  | [] => ([], [])
  | eq :: l' =>
      let '(rs, ws) := build_executed (S index) l' in
      match eq_data eq with
      | Some d =>
          (mkQR (str_or (eq_objective eq)
                   ("Executed Query " ++ nat_to_string (index + 1)))
                (str_or (eq_query eq) "N/A")
                d None (eq_platform eq) :: rs, ws)
      | None =>
          (rs, ("Executed query at index " ++ nat_to_string index
                ++ " has no data. Skipping.") :: ws)
      end
  end.

(** [handleExecutedQueries(executedQueries)]: whether results were
    processed, and the new state. *)
Definition handleExecutedQueries (eqs : option (list ExecutedQuery))
    (st : ChatState) : bool * ChatState :=
  match eqs with
  | Some l =>
      let '(rs, ws) := build_executed 0 l in
      let st1 := fold_left (fun s w => warn w s) ws st in
      (true, setQueryResults (fun _ => rs) st1)
  | None => (false, st)
  end.

(** The callback of [backendSuggestions.map(bs => ...)]. *)
Definition mapSuggestion (bs : obj) : obj :=
  let columns := get "columns" bs in
  let restOfSuggestion := omit ["columns"] bs in
  let o := get "objective" restOfSuggestion in
  let mapped := set "objective" (if truthy o then o else JStr "Unknown Objective")
                    (spread [] restOfSuggestion) in
  let mapped := if truthy (get_opt "x" columns)
                then set "x_axis" (get_opt "x" columns) mapped else mapped in
  if truthy (get_opt "y" columns)
  then set "y_axis" (get_opt "y" columns) mapped else mapped.

(** [handleGraphSuggestions(backendSuggestions)]: the new suggestion list. *)
Definition handleGraphSuggestions (bss : option (list obj)) : list obj :=
  match bss with
  | Some ((_ :: _) as l) => map mapSuggestion l
  | _ => []
  end.

(** The [(objective, query, platform)] triple compared by [query_result]. *)
Definition triple (qr : QueryResult) : string * string * option string :=
  (objective qr, query qr, platform qr).

Definition opt_str_eqb (a b : option string) : bool :=
  match a, b with
  | Some x, Some y => String.eqb x y
  | None, None => true
  | _, _ => false
  end.

Definition same_triple (a b : QueryResult) : bool :=
  String.eqb (objective a) (objective b) && String.eqb (query a) (query b)
  && opt_str_eqb (platform a) (platform b).

(** [prev.findLastIndex(p)]; [None] is the [-1] of the source. *)
Fixpoint findLastIndex {A} (p : A -> bool) (l : list A) : option nat :=
  match l with
  | [] => None
  | x :: l' =>
      match findLastIndex p l' with
      | Some i => Some (S i)
      | None => if p x then Some 0 else None
      end
  end.

(** [xs[i] = f(xs[i])] on a copy of the array (index in range). *)
Fixpoint update_nth {A} (i : nat) (f : A -> A) (l : list A) : list A :=
  match l, i with
  | [], _ => []
  | x :: l', O => f x :: l'
  | x :: l', S i' => x :: update_nth i' f l'
  end.

Definition with_reasoning (r : string) (m : ChatMessage) : ChatMessage :=
  mkMsg (id m) (role m) (content m) (Some r) (reportSections m)
        (generatedQueries m) (step m).

Definition is_milestone (r : Role) : bool :=
  match r with RMilestone => true | _ => false end.

(** The [query_result] payload as a [QueryResult]. *)
Definition queryResultData (e : WebSocketMessage) : QueryResult :=
  mkQR (str_or (ws_objective e) "Unknown Objective")
       (str_or (ws_query e) "Unknown Query")
       (match ws_data e with Some d => d | None => [] end)
       (ws_error e) (ws_platform e).

(** The updater passed to [setQueryResults] by [query_result]. *)
Definition add_query_result (qr : QueryResult) (prev : list QueryResult) :=
  if existsb (same_triple qr) prev then prev else (prev ++ [qr])%list.

(* ------------------------------------------------------------------ *)
(** ** The [useEffect] on [lastJsonMessage]: one event folded into the state *)

Definition opt_includes (o : option string) (k : string) : bool :=
  match o with Some s => includes s k | None => false end.

Definition opt_spaces (o : option string) : option string :=
  option_map underscores_to_spaces o.

(** [case 'status'] *)
Definition on_status (e : WebSocketMessage) (st : ChatState) : ChatState :=
  let stp := ws_step e in
  let statusText :=
    "**" ++ interp (opt_spaces stp) ++ "**: " ++ interp (opt_spaces (ws_status e))
    ++ (if str_truthy (ws_details e) then " - " ++ interp (ws_details e) else "") in
  let st := setCurrentStatus (Some statusText) st in
  if match stp with Some s => endsWith s "workflow_end" | None => false end then
    setIsProcessing false (setCurrentStatus None st)
  else if opt_str_eqb (ws_status e) (Some "completed") then
    let '(milestoneContent, milestoneQueries) :=
      match opt_includes stp "generate", opt_includes stp "queries",
            ws_generated_queries e with
      | true, true, Some gq =>
          let queryCount := List.length gq in
          let queryNoun := if Nat.eqb queryCount 1 then "query" else "queries" in
          ("✅ Query Generation Finished (" ++ nat_to_string queryCount ++ " "
             ++ queryNoun ++ ")", Some gq)
      | _, _, _ =>
          if opt_includes stp "execute" && opt_includes stp "queries"
          then ("✅ Query Execution Finished", None)
          else if opt_includes stp "classification"
          then ("✅ Classification Finished", None)
          else ("✅ " ++ interp (opt_spaces stp) ++ " Finished", None)
      end in
    if opt_includes stp "generate" || opt_includes stp "execute"
       || opt_includes stp "classification" then
      let '(i, st) := generateId st in
      setMessages (fun prev =>
        (prev ++ [mkMsg i RMilestone milestoneContent None None milestoneQueries stp])%list) st
    else st
  else st.

Definition nonblank (o : option string) : bool :=
  match o with Some c => negb (String.eqb (trim c) "") | None => false end.

(** [case 'reasoning_summary'] *)
Definition on_reasoning_summary (e : WebSocketMessage) (st : ChatState) : ChatState :=
  if str_truthy (ws_step e) && str_truthy (ws_reasoning e) then
    let reasoningText := "**Reasoning:**" ++ nl ++ interp (ws_reasoning e) in
    setMessages (fun prev =>
      match findLastIndex (fun m => is_milestone (role m)
                                    && opt_str_eqb (step m) (ws_step e)) prev with
      | Some i => update_nth i (with_reasoning reasoningText) prev
      | None => prev
      end) st
  else st.

Definition final_reasoning (o : option string) : option string :=
  if str_truthy o then Some ("**Final Reasoning:**\n" ++ interp o) else None.

(** [case 'final_insight'] *)
Definition on_final_insight (e : WebSocketMessage) (st : ChatState) : ChatState :=
  let insightContent := str_or (ws_insight e) "No final insight received." in
  let insightGraphSuggestions :=
    match ws_graph_suggestions e with Some g => g | None => [] end in
  let st := addMessageToChat RAssistant insightContent
              (final_reasoning (ws_reasoning e)) None (ws_step e) st in
  let '(_, st) := handleExecutedQueries (ws_executed_queries e) st in
  let st := setGraphSuggestions
              (handleGraphSuggestions (Some insightGraphSuggestions)) st in
  setIsProcessing false (setCurrentStatus None st).

(** [case 'final_recommendation'] *)
Definition on_final_recommendation (e : WebSocketMessage) (st : ChatState) : ChatState :=
  let reportSecs := ws_report_sections e in
  let recommendationGraphSuggestions := ws_graph_suggestions e in
  let st := setGraphSuggestions
              (match recommendationGraphSuggestions with Some g => g | None => [] end) st in
  let st := addMessageToChat RAssistant
              (match reportSecs with
               | Some secs => "Optimization report generated with "
                                ++ nat_to_string (List.length secs) ++ " sections."
               | None => "Optimization report received."
               end)
              (final_reasoning (ws_reasoning e)) reportSecs (ws_step e) st in
  let '(processed, st) := handleExecutedQueries (ws_executed_queries e) st in
  let st := if processed then st else setQueryResults (fun _ => []) st in
  let st := setGraphSuggestions
              (handleGraphSuggestions recommendationGraphSuggestions) st in
  setIsProcessing false (setCurrentStatus None st).

(** [case 'error'] *)
Definition on_error (e : WebSocketMessage) (st : ChatState) : ChatState :=
  let errorMsg :=
    "**Error (" ++ str_or (ws_step e) "Unknown Step" ++ "):** " ++ interp (ws_message e)
    ++ (if str_truthy (ws_details e)
        then "\n\`\`\`\n" ++ interp (ws_details e) ++ "\`\`\`" else "") in
  setIsProcessing false (setCurrentStatus None
    (addMessageToChat RSystem errorMsg None None None st)).

(** The [switch (type)] of the effect. *)
Definition handle_event (e : WebSocketMessage) (st : ChatState) : ChatState :=
  let ty := ws_type e in
  if String.eqb ty "connection_established" then
    if str_truthy (ws_user_id e) then setUserId (ws_user_id e) st else st
  else if String.eqb ty "status" then on_status e st
  else if String.eqb ty "classifier_info" then
    if nonblank (ws_content e) then
      setCurrentStatus (Some "Planning workflow...")
        (addMessageToChat RAssistant (interp (ws_content e)) None None None st)
    else warn "Received classifier_info with no valid content." st
  else if String.eqb ty "classifier_answer" then
    if nonblank (ws_content e) then
      setIsProcessing false (setCurrentStatus None
        (addMessageToChat RAssistant (interp (ws_content e)) None None None st))
    else
      setIsProcessing false (setCurrentStatus None
        (warn "Received classifier_answer with no valid content." st))
  else if String.eqb ty "reasoning_summary" then on_reasoning_summary e st
  else if String.eqb ty "final_insight" then on_final_insight e st
  else if String.eqb ty "final_recommendation" then on_final_recommendation e st
  else if String.eqb ty "query_result" then
    setQueryResults (add_query_result (queryResultData e)) st
  else if String.eqb ty "routing_decision" then st
  else if String.eqb ty "error" then on_error e st
  else warn ("Received unknown WebSocket message type: " ++ ty) st.

(* ------------------------------------------------------------------ *)
(** ** Outbound messages: [parseUserMessageWithContext] and [sendMessage] *)

Definition displayContextStartMarker := "---DISPLAY_CONTEXT START---".
Definition displayContextEndMarker := "---DISPLAY_CONTEXT END---".
Definition queryStartMarker := "---QUERY START---".

(** [parseUserMessageWithContext(message)]: the user content and the
    content of the [context_info] entry to add, if any. The [try] block
    cannot throw ([indexOf] and [substring] are total), so its [catch]
    branch is not modelled. The id of the context entry is drawn when the
    entry is pushed (see [sendMessage]). *)
Definition parseUserMessageWithContext (message : string)
    : string * option string :=
  if includes message displayContextStartMarker
     && includes message queryStartMarker then
    match indexOf queryStartMarker message,
          indexOf displayContextStartMarker message with
    | Some qi, Some di =>
        let queryStartIndex := qi + String.length queryStartMarker in
        let userMessageContent := trim (substring_from queryStartIndex message) in
        let displayContextStartIndex := di + String.length displayContextStartMarker in
        match index_from displayContextStartIndex displayContextEndMarker message with
        | Some displayContextEndIndex =>
            if Nat.ltb displayContextStartIndex displayContextEndIndex then
              let displayContextString :=
                trim (substring_range displayContextStartIndex
                        displayContextEndIndex message) in
              if String.eqb displayContextString "" then (userMessageContent, None)
              else (userMessageContent, Some displayContextString)
            else (userMessageContent, None)
        | None => (userMessageContent, None)
        end
    | _, _ => (message, None)
    end
  else (message, None).

(** The body of the [POST /api/frontend/chat] request. *)
Record ChatRequest : Type := mkReq { req_message : string; req_userId : string }.

(** The synchronous part of [sendMessage(message)], up to the [fetch]:
    the new state and the request issued, if any. *)
Definition sendMessage (message : string) (st : ChatState)
    : ChatState * option ChatRequest :=
  if negb (is_open (readyState st)) then
    (setIsProcessing false
       (addMessageToChat RSystem
          "Error: Cannot connect to assistant. Backend connection is closed."
          None None None st), None)
  else if negb (str_truthy (userId st)) then
    (setIsProcessing false
       (addMessageToChat RSystem
          "Error: Connection established, but user ID not received yet. Please wait a moment and try again."
          None None None st), None)
  else if String.eqb (trim message) "" then (st, None)
  else
    let '(userMessageContent, contextMessageToAdd) :=
      parseUserMessageWithContext message in
    let st :=
      match contextMessageToAdd with
      | Some c =>
          let '(ci, st) := generateId st in
          let '(ui, st) := generateId st in
          setMessages (fun prev =>
            (prev ++ [mkMsg ci RContextInfo c None None None None;
                      mkMsg ui RUser userMessageContent None None None None])%list) st
      | None =>
          let '(ui, st) := generateId st in
          setMessages (fun prev =>
            (prev ++ [mkMsg ui RUser userMessageContent None None None None])%list) st
      end in
    let st := setIsProcessing true (setCurrentStatus (Some "Thinking...")
                (setGraphSuggestions [] (setQueryResults (fun _ => []) st))) in
    (st, Some (mkReq message (interp (userId st)))).

(** How the [fetch] of [sendMessage] settles. *)
Inductive ChatResponse : Type :=
(** [!response.ok]: the text chosen from [detail], [error] or [statusText]. *)
| RespHttpError (text : string)
(** [response.ok]: the [response] and [tool_called] fields of the body. *)
| RespOk (response : option string) (tool_called : bool)
(** [fetch] or [response.json()] threw: the error message, if an [Error]. *)
| RespThrown (msg : option string).

(** The asynchronous tail of [sendMessage]. *)
Definition handle_response (r : ChatResponse) (st : ChatState) : ChatState :=
  match r with
  | RespHttpError t =>
      setIsProcessing false (setCurrentStatus None
        (addMessageToChat RSystem ("Error sending message to agent: " ++ t)
           None None None st))
  | RespOk resp tool =>
      let st := if str_truthy resp
                then addMessageToChat RAssistant (interp resp) None None None st
                else st in
      if tool then setCurrentStatus (Some "Agent processing workflow...") st
      else setIsProcessing false (setCurrentStatus None st)
  | RespThrown m =>
      let errorText := match m with
                       | Some s => s
                       | None => "Network error connecting to the agent."
                       end in
      setIsProcessing false (setCurrentStatus None
        (addMessageToChat RSystem ("Error: " ++ errorText) None None None st))
  end.

(** Every way the hook's state changes: an event of the channel, a call of
    [sendMessage], the settling of its request, and the [onOpen],
    [onClose] and [onError] callbacks of the channel ([readyState] itself
    is owned by the channel library: it is [OPEN] after [onOpen] and
    [CLOSED] after [onClose]). *)
Inductive Op : Type :=
| OpEvent (e : WebSocketMessage)
| OpSend (message : string)
| OpResponse (r : ChatResponse)
| OpOpen
| OpClose
| OpChannelError.

Definition run_op (op : Op) (st : ChatState) : ChatState :=
  match op with
  | OpEvent e => handle_event e st
  | OpSend m => fst (sendMessage m st)
  | OpResponse r => handle_response r st
  | OpOpen => setIsProcessing false (setCurrentStatus None (setReadyState OPEN st))
  | OpClose =>
      setIsProcessing false (setCurrentStatus (Some "Connection closed.")
        (setUserId None (setReadyState CLOSED st)))
  | OpChannelError =>
      setIsProcessing false (setCurrentStatus (Some "Connection error.")
        (setUserId None st))
  end.

Definition run_ops (ops : list Op) (st : ChatState) : ChatState :=
  fold_left (fun s op => run_op op s) ops st.

(* ------------------------------------------------------------------ *)
(** ** [finalGraphSuggestionForViewer] of [DataExplorer.tsx] *)

(** The value of the [useMemo]: [null], a suggestion object, or a
    [TypeError] thrown by an assignment through a non-object [columns]. *)
Inductive Normalized : Type :=
| NNull
| NOut (o : obj)
| NThrow.

(** [plotlyCompatibleSuggestion.columns[k] = v]. The object is mutated in
    place, so the key keeps its position in [plotlyCompatibleSuggestion].
    On an array-valued [columns] the write adds the named property [k]
    (the keys written here are never array indices). Writing through a
    primitive, [null] or [undefined] throws in a module (strict mode). *)
Definition assign_column (k : string) (v : jsval) (p : option obj) : option obj :=
  match p with
  | Some p =>
      match get "columns" p with
      | JObj c => Some (set "columns" (JObj (set k v c)) p)
      | JArr l => Some (set "columns" (JArrExt l [(k, v)]) p)
      | JArrExt l c => Some (set "columns" (JArrExt l (set k v c)) p)
      | _ => None
      end
  | None => None
  end.

Definition assign_if (b : bool) (k : string) (v : jsval) (p : option obj) :=
  if b then assign_column k v p else p.

Definition finalGraphSuggestionForViewer (raw : obj) : Normalized :=
  if js_eq_str (get "type" raw) "image" then
    NOut [("type", JStr "image"); ("title", get "title" raw);
          ("description", get "description" raw);
          ("image_base64", get "image_base64" raw);
          ("original_suggestion", get "original_suggestion" raw)]
  else
    let x_axis := get "x_axis" raw in
    let y_axis := get "y_axis" raw in
    let names := get "names" raw in
    let values := get "values" raw in
    let color_column := get "color_column" raw in
    let chart_type := get "chart_type" raw in
    let title := get "title" raw in
    let description := get "description" raw in
    let relevantType := get "type" raw in
    let restOfChatSuggestion :=
      omit ["x_axis"; "y_axis"; "names"; "values"; "color_column";
            "chart_type"; "title"; "description"; "type"] raw in
    let p := spread
      [("type", if is_string chart_type then chart_type else relevantType);
       ("title", if is_string title then title else JUndef);
       ("description", if is_string description then description else JUndef);
       ("columns", JObj [])] restOfChatSuggestion in
    let p := assign_if (is_string x_axis) "x" x_axis (Some p) in
    let p := assign_if (is_string y_axis || is_array y_axis) "y" y_axis p in
    let p := assign_if (is_string names) "names" names p in
    let p := assign_if (is_string values) "values" values p in
    let p := assign_if (is_string color_column) "color" color_column p in
    match p with
    | None => NThrow
    | Some p =>
        if js_eq_str (get "type" p) "image" || js_eq_str (get "type" p) "none" then
          if js_eq_str (get "type" p) "none"
          then NOut [("type", JStr "none"); ("title", get "title" p); ("columns", JObj [])]
          else NNull
        else NOut p
    end.

(** The chart a backend suggestion becomes on screen: the hook's mapping
    ([handleGraphSuggestions]) followed by the viewer's normalization. *)
Definition normalize (raw : obj) : Normalized :=
  finalGraphSuggestionForViewer (mapSuggestion raw).

(* ------------------------------------------------------------------ *)
(** ** [plotParams] and the content choice of [GraphViewer.tsx] *)

Definition Z_to_string (z : Z) : string :=
  if Z.ltb z 0 then "-" ++ nat_to_string (Z.abs_nat z) else nat_to_string (Z.to_nat z).

(** [String(v)], used when a value is a property key [row[v]]. *)
Fixpoint js_to_string (v : jsval) : string :=
  match v with
  | JUndef => "undefined"
  | JNull => "null"
  | JBool b => if b then "true" else "false"
  | JNum z => Z_to_string z
  | JStr s => s
  | JArr l | JArrExt l _ =>
      let fix join (l : list jsval) : string :=
        match l with
        | [] => ""
        | [x] => match x with JUndef | JNull => "" | _ => js_to_string x end
        | x :: l' => match x with JUndef | JNull => "" | _ => js_to_string x end
                     ++ "," ++ join l'
        end in
      join l
  | JObj _ => "[object Object]"
  end.

(** [row?.[col]]. *)
Definition cell (r : row) (col : jsval) : jsval := get (js_to_string col) r.

(** The traces of the Plotly figure (layout and config, which only style
    it, are not modelled). *)
Inductive Trace : Type :=
| XYTrace (kind : string) (xs ys : list jsval) (colors : option (list jsval))
| PieTrace (labels vals : list jsval).

(** [Array.isArray(yCol) ? yCol[0] : yCol]. *)
Definition first_if_array (yCol : jsval) : jsval :=
  match yCol with
  | JArr (y0 :: _) | JArrExt (y0 :: _) _ => y0
  | JArr [] | JArrExt [] _ => JUndef
  | _ => yCol
  end.

Definition plotParams (graphSuggestion : option obj) (result : option QueryResult)
    : option Trace :=
  match graphSuggestion with
  | None => None
  | Some gs =>
      let type := get "type" gs in
      if js_eq_str type "image" || js_eq_str type "none" || negb (truthy type)
      then None
      else
        let columns := get "columns" gs in
        match result with
        | None => None
        | Some r =>
            match dataframe r with
            | [] => None
            | row0 :: _ =>
                let data := dataframe r in
                let xCol := get_opt "x" columns in
                let yCol := get_opt "y" columns in
                let nameCol := get_opt "names" columns in
                let valCol := get_opt "values" columns in
                let colorCol := get_opt "color" columns in
                if js_eq_str type "bar" || js_eq_str type "line"
                   || js_eq_str type "scatter" then
                  let yColString := first_if_array yCol in
                  if negb (truthy xCol) || negb (truthy yColString)
                     || negb (truthy (cell row0 xCol))
                     || negb (truthy (cell row0 yColString))
                  then None
                  else
                    Some (XYTrace (js_to_string type)
                            (map (fun rw => cell rw xCol) data)
                            (map (fun rw => cell rw yColString) data)
                            (if truthy colorCol && truthy (cell row0 colorCol)
                             then Some (map (fun rw => cell rw colorCol) data)
                             else None))
                else if js_eq_str type "pie" then
                  if negb (truthy nameCol) || negb (truthy valCol)
                     || negb (truthy (cell row0 nameCol))
                     || negb (truthy (cell row0 valCol))
                  then None
                  else
                    Some (PieTrace (map (fun rw => cell rw nameCol) data)
                                   (map (fun rw => cell rw valCol) data))
                else None
            end
        end
  end.

Definition is_some {A} (o : option A) : bool :=
  match o with Some _ => true | None => false end.

(** What the card of [GraphViewer] shows. *)
Inductive GraphContent : Type :=
| CPlaceholder | CErrorBox | CImage | CPlot | CNoGraphNeeded
| CUnavailable | CUnrecognized | CNoData.

Definition graphContent (result : option QueryResult) (graphSuggestion : option obj)
    (isProcessing isInitialStateProp : bool) : GraphContent :=
  let derivedIsInitialState :=
    isInitialStateProp && negb (is_some graphSuggestion) && negb isProcessing in
  let showLoadingPlaceholder := isProcessing && negb (is_some graphSuggestion) in
  let type := match graphSuggestion with Some g => get "type" g | None => JUndef end in
  let hasPlotlyData :=
    is_some (plotParams graphSuggestion result) && negb (js_eq_str type "image") in
  if derivedIsInitialState then CPlaceholder
  else if showLoadingPlaceholder then CPlaceholder
  else if (match result with Some r => str_truthy (error r) | None => false end)
  then CErrorBox
  else match graphSuggestion with
       | Some _ =>
           if js_eq_str type "image" then CImage
           else if truthy type && negb (js_eq_str type "none") && hasPlotlyData
           then CPlot
           else if js_eq_str type "none" then CNoGraphNeeded
           else if truthy type && negb (js_eq_str type "image")
                   && negb hasPlotlyData && negb isProcessing
           then CUnavailable
           else if isProcessing then CPlaceholder
           else CUnrecognized
       | None => if isProcessing then CPlaceholder else CNoData
       end.

(** React renders a string, a number, a boolean, [null] or [undefined] as
    a child, and an array by rendering each of its elements; a plain
    object as a child throws ("Objects are not valid as a React child"). *)
Fixpoint react_child_ok (v : jsval) : bool :=
  match v with
  | JObj _ => false
  | JArr l | JArrExt l _ => forallb react_child_ok l
  | _ => true
  end.

(** The header of the card,
    [<CardTitle>{graphSuggestion?.title || (result?.objective ? ... : 'Graph')}</CardTitle>]:
    [false] when rendering it throws. A falsy title gives way to a string. *)
Definition cardTitle_ok (graphSuggestion : option obj) : bool :=
  match graphSuggestion with
  | Some g => let t := get "title" g in negb (truthy t) || react_child_ok t
  | None => true
  end.

(* ------------------------------------------------------------------ *)
(** ** Pagination, data source and graph card of [DataExplorer.tsx] *)

(** The clamping [useEffect] on one index: the index the effect leaves.
    Indices and totals are JavaScript numbers, here integers. *)
Definition clampIndex (total currentIndex : Z) : Z :=
  if Z.eqb total 0 then 0
  else if Z.leb total currentIndex then Z.max 0 (total - 1)
  else currentIndex.

(** [handleNextTable] / [handleNextGraph]: the updater given to the setter. *)
Definition handleNext (total prev : Z) : Z :=
  Z.min (prev + 1) (if Z.ltb 0 total then total - 1 else 0).

(** [handlePrevTable] / [handlePrevGraph]. *)
Definition handlePrev (prev : Z) : Z := Z.max (prev - 1) 0.

(** [xs[i]] for an integer index: [undefined] ([None]) out of range. *)
Definition js_index {A} (l : list A) (i : Z) : option A :=
  if Z.ltb i 0 then None else nth_error l (Z.to_nat i).

(** [totalTableResults > 0 ? queryResults[currentTableIndex] : undefined]. *)
Definition selectedTableResult (qrs : list QueryResult) (idx : Z) : option QueryResult :=
  if Z.ltb 0 (Z.of_nat (List.length qrs)) then js_index qrs idx else None.

(** [totalGraphSuggestions > 0 ? graphSuggestions[currentGraphIndex] : null];
    an index past the end reads [undefined], which is falsy as well. *)
Definition currentRawGraphSuggestion (gs : list obj) (idx : Z) : option obj :=
  if Z.ltb 0 (Z.of_nat (List.length gs)) then js_index gs idx else None.

(** [title?.includes(qr.objective)]: [undefined] (falsy) on a [null] or
    [undefined] title, [String.prototype.includes] on a string,
    [Array.prototype.includes] on an array; on a number, a boolean or a
    plain object there is no callable [includes] and the call throws a
    [TypeError] ([None]). *)
Definition title_includes (title : jsval) (s : string) : option bool :=
  match title with
  | JUndef | JNull => Some false
  | JStr t => Some (includes t s)
  | JArr l | JArrExt l _ => Some (existsb (fun v => js_eq_str v s) l)
  | _ => None
  end.

(** The predicate of the fallback [queryResults.find(qr => qr.objective &&
    (title?.includes(qr.objective) || qr.objective.includes(title || '')))];
    [None] when it throws. *)
Definition title_match (title : jsval) (qr : QueryResult) : option bool :=
  if String.eqb (objective qr) "" then Some false
  else
    match title_includes title (objective qr) with
    | None => None
    | Some true => Some true
    | Some false =>
        Some (includes (objective qr)
                (if truthy title then js_to_string title else ""))
    end.

(** [Array.prototype.find] with a predicate that may throw: [None] when it
    throws, [Some None] for [undefined]. *)
Fixpoint find_js {A} (p : A -> option bool) (l : list A) : option (option A) :=
  match l with
  | [] => Some None
  | x :: l' =>
      match p x with
      | None => None
      | Some true => Some (Some x)
      | Some false => find_js p l'
      end
  end.

(** [queryResults.length > 0 ? queryResults[0] : undefined]. *)
Definition first_result (qrs : list QueryResult) : option QueryResult :=
  match qrs with q :: _ => Some q | [] => None end.

(** The [objectiveToMatch] computed from the current suggestion. *)
Definition objectiveToMatch (g : obj) : jsval :=
  let originalSuggestion := get "original_suggestion" g in
  if js_eq_str (get "type" g) "image" && truthy originalSuggestion then
    match originalSuggestion with
    | JObj o =>
        if has_key "data_source_objective" o
        then get "data_source_objective" o else JUndef
    | _ => JUndef
    end
  else if negb (js_eq_str (get "type" g) "image") then
    (if truthy (get "objective" g) then get "objective" g
     else get "data_source_objective" g)
  else JUndef.

(** The [useMemo] [dataSourceForCurrentGraph]: [None] when it throws, else
    the query result handed to [GraphViewer] ([None] for [undefined]).
    [qr.objective.includes(objectiveToMatch)] converts a non-string
    argument with [String(..)]. The [console.warn] lines are not modelled. *)
Definition dataSourceForCurrentGraph (cur : option obj) (queryResults : list QueryResult)
    : option (option QueryResult) :=
  match cur with
  | None => Some None
  | Some g =>
      let otm := objectiveToMatch g in
      if negb (truthy otm) then
        match find_js (title_match (get "title" g)) queryResults with
        | None => None
        | Some (Some qr) => Some (Some qr)
        | Some None => Some (first_result queryResults)
        end
      else
        match find (fun qr => negb (String.eqb (objective qr) "")
                              && includes (objective qr) (js_to_string otm))
                   queryResults with
        | Some qr => Some (Some qr)
        | None => Some (first_result queryResults)
        end
  end.

(** [isInitialState] of [DataExplorer]. *)
Definition isInitialStateDE (isProcessing : bool) (totalTable totalGraph : Z) : bool :=
  negb isProcessing && Z.eqb totalTable 0 && Z.eqb totalGraph 0.

(** What [renderGraph] puts on screen. *)
Inductive GraphCard : Type :=
| NoGraphCard
| Viewer (c : GraphContent).

(** [renderGraph()]: [None] when rendering throws (in
    [dataSourceForCurrentGraph], in [finalGraphSuggestionForViewer], or in
    the [CardTitle] of the [GraphViewer] it renders). *)
Definition renderGraph (queryResults : list QueryResult) (graphSuggestions : list obj)
    (isProcessing : bool) (currentGraphIndex : Z) : option GraphCard :=
  let totalTable := Z.of_nat (List.length queryResults) in
  let totalGraph := Z.of_nat (List.length graphSuggestions) in
  let cur := currentRawGraphSuggestion graphSuggestions currentGraphIndex in
  if isInitialStateDE isProcessing totalTable totalGraph && Z.eqb totalGraph 0
  then Some NoGraphCard
  else
    match dataSourceForCurrentGraph cur queryResults with
    | None => None
    | Some result =>
        let final :=
          match cur with
          | None => Some None
          | Some g =>
              match finalGraphSuggestionForViewer g with
              | NOut p => Some (Some p)
              | NNull => Some None
              | NThrow => None
              end
          end in
        match final with
        | None => None
        | Some fg =>
            if cardTitle_ok fg
            then Some (Viewer (graphContent result fg isProcessing
                                 (negb isProcessing && negb (is_some fg))))
            else None
        end
  end.

(* ------------------------------------------------------------------ *)
(** ** Derived notions used in the statements *)

(** The de-duplication invariant of the result list. *)
Definition NoDupTriples (l : list QueryResult) : Prop := NoDup (map triple l).

Definition triple_eqb (a b : string * string * option string) : bool :=
  match a, b with
  | (o1, q1, p1), (o2, q2, p2) =>
      String.eqb o1 o2 && String.eqb q1 q2 && opt_str_eqb p1 p2
  end.

(** The number of entries of [l] carrying triple [t]. *)
Definition count_triple (t : string * string * option string) (l : list QueryResult) : nat :=
  List.length (filter (fun qr => triple_eqb (triple qr) t) l).

(** The bulk payload an operation hands to [handleExecutedQueries]. *)
Definition op_bulk (op : Op) : option (list ExecutedQuery) :=
  match op with
  | OpEvent e =>
      if String.eqb (ws_type e) "final_insight"
         || String.eqb (ws_type e) "final_recommendation"
      then ws_executed_queries e else None
  | _ => None
  end.

(** A normalized suggestion in plot form (neither image nor none form). *)
Definition is_plot_form (p : obj) : bool :=
  negb (js_eq_str (get "type" p) "image" || js_eq_str (get "type" p) "none").

(** Role [k] of a normalized [columns] object: present exactly when [b],
    and then holding [v]. *)
Definition role_copied (cols : obj) (k : string) (v : jsval) (b : bool) : Prop :=
  has_key k cols = b /\ (b = true -> get k cols = v).

(** The fields the viewer's normalizer takes out of a suggestion. *)
Definition viewer_omitted : list string :=
  ["x_axis"; "y_axis"; "names"; "values"; "color_column";
   "chart_type"; "title"; "description"; "type"].

(** The column roles of the round-trip example. *)
Definition nested_xy : jsval := JObj [("x", JStr "date"); ("y", JStr "revenue")].

(** None of the keys [ks] occurs in [o]. *)
Definition no_key (ks : list string) (o : obj) : bool :=
  forallb (fun k => negb (has_key k o)) ks.

(** The keys of [o] are pairwise distinct, as in any JavaScript object. *)
Fixpoint nodup_keys (o : obj) : bool :=
  match o with
  | [] => true
  | (k, _) :: o' => negb (has_key k o') && nodup_keys o'
  end.

(** Where the [x] role of a raw suggestion comes from: the nested
    [columns.x] when truthy, else the flat [x_axis]. *)
Definition x_source (raw : obj) : jsval :=
  let X := get_opt "x" (get "columns" raw) in
  if truthy X then X else get "x_axis" raw.

(** The same for the [y] role. *)
Definition y_source (raw : obj) : jsval :=
  let Y := get_opt "y" (get "columns" raw) in
  if truthy Y then Y else get "y_axis" raw.

(** The results built from a bulk payload, read as "number the entries
    from 1, keep those with [data], build one result each". *)
Definition bulk_results (l : list ExecutedQuery) : list QueryResult :=
  map (fun '(n, eq) =>
         mkQR (str_or (eq_objective eq) ("Executed Query " ++ nat_to_string n))
              (str_or (eq_query eq) "N/A")
              (match eq_data eq with Some d => d | None => [] end)
              None (eq_platform eq))
      (filter (fun '(_, eq) => is_some (eq_data eq))
              (combine (seq 1 (List.length l)) l)).

(** The warnings of a bulk payload: one per entry without [data], naming
    its 0-based index. *)
Definition bulk_warnings (l : list ExecutedQuery) : list string :=
  map (fun '(n, _) =>
         "Executed query at index " ++ nat_to_string n ++ " has no data. Skipping.")
      (filter (fun '(_, eq) => negb (is_some (eq_data eq)))
              (combine (seq 0 (List.length l)) l)).

(** A transcript entry with its [reasoning] field blanked: the part of an
    entry no operation rewrites. *)
Definition entry_without_reasoning (m : ChatMessage) : ChatMessage :=
  mkMsg (id m) (role m) (content m) None (reportSections m) (generatedQueries m) (step m).

(** [st'] extends the transcript of [st], up to reasoning fields. *)
Definition transcript_extends (st st' : ChatState) : Prop :=
  exists new, map entry_without_reasoning (messages st') =
              (map entry_without_reasoning (messages st) ++ new)%list.

(** While a turn is in progress, the channel is open and a user id is known. *)
Definition turn_ready (st : ChatState) : Prop :=
  isProcessing st = true -> is_open (readyState st) = true /\ str_truthy (userId st) = true.

(* ------------------------------------------------------------------ *)
(** ** Sample inputs *)

(** An event of type [ty] carrying only the given [executed_queries]. *)
Definition ws_bulk (ty : string) (l : list ExecutedQuery) : WebSocketMessage :=
  mkWS ty None None None None None None None None None None None None None
       None None None (Some l).

(** A [query_result] event for objective "o", query "q" on "google". *)
Definition ws_query_result (data : option (list row)) : WebSocketMessage :=
  mkWS "query_result" None None None None None None None None None None
       (Some "o") (Some "q") data None None (Some "google") None.

Definition sample_row : row := [("a", JNum 1)].

Definition sample_executed : ExecutedQuery :=
  mkEQ (Some "google") (Some "o") (Some "q") (Some [sample_row]).

(** The hook once the channel is open and a session id "u" is known. *)
Definition ready_state : ChatState :=
  setUserId (Some "u") (run_op OpOpen initial_state).


(** A transcript with one milestone entry for step "s1". *)
Definition milestone_state : ChatState :=
  addMessageToChat RMilestone "Step one" None None (Some "s1") initial_state.

Definition ws_reasoning_summary : WebSocketMessage :=
  mkWS "reasoning_summary" None (Some "s1") None None (Some "why") None None None
       None None None None None None None None None.

(** A bar chart on "date" and "revenue" and a result whose first row has
    both keys, with a zero revenue. *)
Definition bar_suggestion : obj :=
  [("type", JStr "bar"); ("columns", JObj [("x", JStr "date"); ("y", JStr "revenue")])].

Definition zero_revenue_result : QueryResult :=
  mkQR "o" "q" [[("date", JStr "2024-01"); ("revenue", JNum 0)]] None None.

(** The [connection_established] event bringing user id [uid]. *)
Definition ws_connection_established (uid : string) : WebSocketMessage :=
  mkWS "connection_established" (Some uid) None None None None None None None None
       None None None None None None None None.

(** A [final_insight] event suggesting [bar_suggestion]. *)
Definition ws_final_with_chart : WebSocketMessage :=
  mkWS "final_insight" None None None None None None None (Some [bar_suggestion])
       None None None None None None None None None.

(** A completed [status] event of step [execute_queries]. *)
Definition ws_status_completed : WebSocketMessage :=
  mkWS "status" None (Some "execute_queries") (Some "completed") None None None None
       None None None None None None None None None None.

(** An image suggestion without [original_suggestion]. *)
Definition image_suggestion : obj :=
  [("type", JStr "image"); ("title", JStr "Trend"); ("image_base64", JStr "iVBOR")].

(** A suggestion typed none whose [chart_type] is image. *)
Definition chart_type_image_suggestion : obj :=
  [("type", JStr "none"); ("chart_type", JStr "image")].

(** A result with two rows on "date" and "revenue". *)
Definition two_row_result : QueryResult :=
  mkQR "o" "q" [[("date", JStr "2024-01"); ("revenue", JNum 5)];
                [("date", JStr "2024-02"); ("revenue", JNum 7)]] None None.

(* ------------------------------------------------------------------ *)
(** ** Frame lemmas of the state setters *)

Lemma queryResults_warns ws st :
  queryResults (fold_left (fun s w => warn w s) ws st) = queryResults st.
Proof. revert st; induction ws as [|w ws IH]; intro st; simpl; [reflexivity|].
  rewrite IH; reflexivity. Qed.

Lemma isProcessing_warns ws st :
  isProcessing (fold_left (fun s w => warn w s) ws st) = isProcessing st.
Proof. revert st; induction ws as [|w ws IH]; intro st; simpl; [reflexivity|].
  rewrite IH; reflexivity. Qed.

Lemma warnings_warns ws st :
  warnings (fold_left (fun s w => warn w s) ws st) = (warnings st ++ ws)%list.
Proof. revert st; induction ws as [|w ws IH]; intro st; simpl.
  - rewrite app_nil_r; reflexivity.
  - rewrite IH; simpl; rewrite <- app_assoc; reflexivity. Qed.

(** [C4] *)
(** Claim C4: a [final_insight] event without [executed_queries] leaves the
    result list as it was, a [final_recommendation] event without
    [executed_queries] empties it, and both end the turn. *)
Theorem final_events_without_bulk (e : WebSocketMessage) (st : ChatState) :
  ws_executed_queries e = None ->
  (ws_type e = "final_insight" ->
     queryResults (handle_event e st) = queryResults st
     /\ isProcessing (handle_event e st) = false) /\
  (ws_type e = "final_recommendation" ->
     queryResults (handle_event e st) = []
     /\ isProcessing (handle_event e st) = false).
Proof.
  intros Hb; split; intros Hty; unfold handle_event; rewrite Hty; cbn -[on_final_insight on_final_recommendation];
  [unfold on_final_insight | unfold on_final_recommendation];
  unfold handleExecutedQueries; rewrite Hb; simpl; auto.
Qed.

(* ------------------------------------------------------------------ *)
(** ** [reasoning_summary]: lemmas on [findLastIndex] and [update_nth] *)

Lemma opt_str_eqb_spec (a b : option string) : opt_str_eqb a b = true <-> a = b.
Proof.
  destruct a as [x|], b as [y|]; simpl; split; intro H; try discriminate; auto.
  - apply String.eqb_eq in H; subst; reflexivity.
  - inversion H; subst; apply String.eqb_refl.
Qed.

Lemma findLastIndex_some {A} (p : A -> bool) (l : list A) (i : nat) :
  findLastIndex p l = Some i ->
  (exists x, nth_error l i = Some x /\ p x = true) /\
  (forall k y, i < k -> nth_error l k = Some y -> p y = false).
Proof.
  revert i; induction l as [|x l IH]; intros i H; simpl in H; [discriminate|].
  destruct (findLastIndex p l) as [j|] eqn:Hl.
  - inversion H; subst i. destruct (IH j eq_refl) as [[y [Hy Hpy]] Hmax].
    split; [exists y; simpl; auto|].
    intros k z Hk Hz. destruct k as [|k]; [lia|]. simpl in Hz.
    apply (Hmax k z); [lia|assumption].
  - destruct (p x) eqn:Hpx; [|discriminate]. inversion H; subst i.
    split; [exists x; simpl; auto|].
    intros k z Hk Hz. destruct k as [|k]; [lia|]. simpl in Hz.
    assert (Hnone : forall y, In y l -> p y = false).
    { clear -Hl. induction l as [|w l IHl]; simpl; [tauto|].
      simpl in Hl. destruct (findLastIndex p l); [discriminate|].
      destruct (p w) eqn:Hw; [discriminate|].
      intros y [<-|Hy]; auto. }
    apply Hnone. eapply nth_error_In; eauto.
Qed.

Lemma findLastIndex_none {A} (p : A -> bool) (l : list A) :
  findLastIndex p l = None -> forall x, In x l -> p x = false.
Proof.
  induction l as [|w l IH]; simpl; [tauto|]. intro H.
  destruct (findLastIndex p l); [discriminate|].
  destruct (p w) eqn:Hw; [discriminate|].
  intros x [<-|Hx]; auto.
Qed.

Lemma update_nth_length {A} (i : nat) (f : A -> A) (l : list A) :
  List.length (update_nth i f l) = List.length l.
Proof.
  revert i; induction l as [|x l IH]; intros [|i]; simpl; auto.
Qed.

Lemma nth_error_update_nth {A} (i j : nat) (f : A -> A) (l : list A) :
  nth_error (update_nth i f l) j =
  if Nat.eqb j i then option_map f (nth_error l j) else nth_error l j.
Proof.
  revert i j; induction l as [|x l IH]; intros [|i] [|j]; simpl;
    try reflexivity; try (destruct (Nat.eqb _ _); reflexivity); apply IH.
Qed.

(** [C6] *)
(** Claim C6: a [reasoning_summary] event changes nothing but the
    [reasoning] field of the last milestone entry whose [step] is the
    event's step; every other entry, every other field of that entry and
    every other part of the state stay as they were, and when no milestone
    carries that step the transcript is unchanged. *)
Theorem reasoning_summary_frame (e : WebSocketMessage) (st : ChatState) :
  ws_type e = "reasoning_summary" ->
  let st' := handle_event e st in
  st' = setMessages (fun _ => messages st') st /\
  List.length (messages st') = List.length (messages st) /\
  (forall j m, nth_error (messages st) j = Some m ->
     nth_error (messages st') j = Some m \/
     (exists r, nth_error (messages st') j = Some (with_reasoning r m)
        /\ role m = RMilestone /\ step m = ws_step e
        /\ forall k m2, j < k -> nth_error (messages st) k = Some m2 ->
             ~ (role m2 = RMilestone /\ step m2 = ws_step e))) /\
  ((forall m, In m (messages st) -> ~ (role m = RMilestone /\ step m = ws_step e)) ->
     messages st' = messages st).
Proof.
  intros Hty st'. subst st'.
  unfold handle_event; rewrite Hty; cbn -[on_reasoning_summary].
  unfold on_reasoning_summary.
  set (P := fun m : ChatMessage => is_milestone (role m) && opt_str_eqb (step m) (ws_step e)).
  assert (HP : forall m, P m = true <-> role m = RMilestone /\ step m = ws_step e).
  { intro m; unfold P; rewrite andb_true_iff, opt_str_eqb_spec.
    destruct (role m); simpl; intuition congruence. }
  destruct (str_truthy (ws_step e) && str_truthy (ws_reasoning e)).
  2:{ destruct st; simpl; repeat split; auto. }
  simpl. fold P.
  destruct (findLastIndex P (messages st)) as [i|] eqn:Hf.
  - destruct (findLastIndex_some P _ i Hf) as [[x [Hx HPx]] Hmax].
    unfold setMessages; cbn [messages]; rewrite Hf.
    split; [reflexivity|]. split; [apply update_nth_length|]. split.
    + intros j m Hj. rewrite nth_error_update_nth.
      destruct (Nat.eqb j i) eqn:Hji; [|left; exact Hj].
      apply Nat.eqb_eq in Hji; subst j. right.
      rewrite Hj in Hx; inversion Hx; subst x.
      eexists; split; [rewrite Hj; reflexivity|].
      apply HP in HPx. destruct HPx as [Hr Hs]. split; [exact Hr|]. split; [exact Hs|].
      intros k m2 Hk Hm2 Hc. apply HP in Hc. rewrite (Hmax k m2 Hk Hm2) in Hc. discriminate.
    + intros Hno. exfalso. apply (Hno x); [eapply nth_error_In; eauto|].
      apply HP; exact HPx.
  - unfold setMessages; cbn [messages]; rewrite Hf.
    split; [destruct st; reflexivity|]. split; [reflexivity|]. split; [|reflexivity].
    intros j m Hj; left; exact Hj.
Qed.

(** [C10] *)
(** Claim C10 (as amended): a [query_result] event whose payload has no
    rows still yields an entry with an empty row sequence, objective and
    query defaulting to "Unknown Objective" and "Unknown Query"; the entry
    is appended unless an entry with the same triple is already listed. *)
Theorem query_result_without_rows (e : WebSocketMessage) (st : ChatState) :
  ws_type e = "query_result" ->
  (ws_data e = None \/ ws_data e = Some []) ->
  let qr := mkQR (str_or (ws_objective e) "Unknown Objective")
                 (str_or (ws_query e) "Unknown Query") [] (ws_error e) (ws_platform e) in
  queryResults (handle_event e st) =
    (if existsb (same_triple qr) (queryResults st) then queryResults st
     else queryResults st ++ [qr])%list
  /\ isProcessing (handle_event e st) = isProcessing st.
Proof.
  intros Hty Hd qr. unfold handle_event; rewrite Hty; cbn -[add_query_result].
  assert (Hq : queryResultData e = qr).
  { unfold queryResultData, qr; destruct Hd as [Hd|Hd]; rewrite Hd; reflexivity. }
  rewrite Hq; split; reflexivity.
Qed.

(** [C3] *)
(** Claim C3 (as amended): [sendMessage] on a channel that is not open, or
    before a session id is known, appends exactly one system entry, clears
    the processing flag, changes nothing else and sends nothing; on an
    open channel with a session id, a blank text is ignored altogether: no
    entry, no request, the state (processing flag included) unchanged. *)
Theorem sendMessage_guards (message : string) (st : ChatState) :
  ((is_open (readyState st) = false \/ str_truthy (userId st) = false) ->
     let '(st', req) := sendMessage message st in
     req = None /\ isProcessing st' = false /\
     (exists i c, messages st' = (messages st ++ [mkMsg i RSystem c None None None None])%list) /\
     queryResults st' = queryResults st /\ graphSuggestions st' = graphSuggestions st /\
     currentStatus st' = currentStatus st /\ userId st' = userId st /\
     readyState st' = readyState st /\ warnings st' = warnings st) /\
  (is_open (readyState st) = true -> str_truthy (userId st) = true ->
     trim message = "" -> sendMessage message st = (st, None)).
Proof.
  split.
  - intros H. unfold sendMessage.
    destruct (is_open (readyState st)) eqn:Ho; simpl.
    + destruct H as [H|H]; [discriminate|]. rewrite H; simpl.
      repeat split; eauto.
    + repeat split; eauto.
  - intros Ho Hu Ht. unfold sendMessage. rewrite Ho, Hu, Ht. reflexivity.
Qed.

(* ------------------------------------------------------------------ *)
(** ** Bulk [executed_queries] *)

Lemma build_executed_spec (i : nat) (l : list ExecutedQuery) :
  build_executed i l =
  (map (fun '(n, eq) =>
          mkQR (str_or (eq_objective eq) ("Executed Query " ++ nat_to_string n))
               (str_or (eq_query eq) "N/A")
               (match eq_data eq with Some d => d | None => [] end)
               None (eq_platform eq))
       (filter (fun '(_, eq) => is_some (eq_data eq))
               (combine (seq (S i) (List.length l)) l)),
   map (fun '(n, _) =>
          "Executed query at index " ++ nat_to_string n ++ " has no data. Skipping.")
       (filter (fun '(_, eq) => negb (is_some (eq_data eq)))
               (combine (seq i (List.length l)) l))).
Proof.
  revert i; induction l as [|q l IH]; intro i; [reflexivity|].
  simpl build_executed. rewrite IH. simpl.
  destruct (eq_data q) as [d|] eqn:Hd; simpl; rewrite ?Hd, ?Nat.add_1_r; reflexivity.
Qed.

Lemma build_executed_bulk (l : list ExecutedQuery) :
  build_executed 0 l = (bulk_results l, bulk_warnings l).
Proof. apply build_executed_spec. Qed.

Lemma handleExecutedQueries_some (l : list ExecutedQuery) (st : ChatState) :
  handleExecutedQueries (Some l) st =
  (true, setQueryResults (fun _ => bulk_results l)
           (fold_left (fun s w => warn w s) (bulk_warnings l) st)).
Proof. unfold handleExecutedQueries. rewrite build_executed_bulk. reflexivity. Qed.

(** [C2] *)
(** Claim C2 (as amended): a terminal event carrying [executed_queries]
    replaces the result list, whatever it held, by one result per entry
    whose [data] is present (an empty array included), numbered from 1 for
    the default objective and with query "N/A" by default; each entry
    without [data] is skipped with one warning naming its index. *)
Theorem executed_queries_replace (e : WebSocketMessage) (st : ChatState)
    (l : list ExecutedQuery) :
  (ws_type e = "final_insight" \/ ws_type e = "final_recommendation") ->
  ws_executed_queries e = Some l ->
  queryResults (handle_event e st) = bulk_results l /\
  warnings (handle_event e st) = (warnings st ++ bulk_warnings l)%list.
Proof.
  intros [Hty|Hty] Hb; unfold handle_event; rewrite Hty;
    cbn -[on_final_insight on_final_recommendation handleExecutedQueries].
  - unfold on_final_insight; rewrite Hb, handleExecutedQueries_some.
    simpl. rewrite warnings_warns. split; reflexivity.
  - unfold on_final_recommendation; rewrite Hb, handleExecutedQueries_some.
    simpl. rewrite warnings_warns. split; reflexivity.
Qed.

(* ------------------------------------------------------------------ *)
(** ** The result list under every operation *)

Lemma queryResults_addMessageToChat r c rsn secs stp st :
  queryResults (addMessageToChat r c rsn secs stp st) = queryResults st.
Proof. reflexivity. Qed.

Lemma queryResults_on_status e st : queryResults (on_status e st) = queryResults st.
Proof.
  unfold on_status.
  destruct (match ws_step e with Some s => endsWith s "workflow_end" | None => false end);
    [reflexivity|].
  destruct (opt_str_eqb (ws_status e) (Some "completed")); [|reflexivity].
  match goal with |- context [let '(_, _) := ?x in _] => destruct x end.
  destruct (_ || _ || _); [|reflexivity]. reflexivity.
Qed.

Lemma queryResults_on_reasoning_summary e st :
  queryResults (on_reasoning_summary e st) = queryResults st.
Proof. unfold on_reasoning_summary. destruct (_ && _); reflexivity. Qed.

Lemma queryResults_on_final_insight e st :
  queryResults (on_final_insight e st) =
  match ws_executed_queries e with
  | Some l => bulk_results l
  | None => queryResults st
  end.
Proof.
  unfold on_final_insight. destruct (ws_executed_queries e) as [l|].
  - rewrite handleExecutedQueries_some. reflexivity.
  - reflexivity.
Qed.

Lemma queryResults_on_final_recommendation e st :
  queryResults (on_final_recommendation e st) =
  match ws_executed_queries e with
  | Some l => bulk_results l
  | None => []
  end.
Proof.
  unfold on_final_recommendation. destruct (ws_executed_queries e) as [l|].
  - rewrite handleExecutedQueries_some. reflexivity.
  - reflexivity.
Qed.

(** What an event can do to the result list. *)
Lemma handle_event_queryResults e st :
  queryResults (handle_event e st) = queryResults st \/
  queryResults (handle_event e st) = add_query_result (queryResultData e) (queryResults st) \/
  queryResults (handle_event e st) = [] \/
  (exists l, op_bulk (OpEvent e) = Some l /\
             queryResults (handle_event e st) = bulk_results l).
Proof.
  unfold handle_event, op_bulk.
  destruct (String.eqb (ws_type e) "connection_established"); [destruct (str_truthy _); auto|].
  destruct (String.eqb (ws_type e) "status"); [left; apply queryResults_on_status|].
  destruct (String.eqb (ws_type e) "classifier_info"); [destruct (nonblank _); auto|].
  destruct (String.eqb (ws_type e) "classifier_answer"); [destruct (nonblank _); auto|].
  destruct (String.eqb (ws_type e) "reasoning_summary");
    [left; apply queryResults_on_reasoning_summary|].
  destruct (String.eqb (ws_type e) "final_insight") eqn:Hfi.
  { rewrite queryResults_on_final_insight. simpl.
    destruct (ws_executed_queries e) as [l|]; [|auto].
    right; right; right; exists l; auto. }
  destruct (String.eqb (ws_type e) "final_recommendation") eqn:Hfr.
  { rewrite queryResults_on_final_recommendation. simpl.
    destruct (ws_executed_queries e) as [l|]; [|auto].
    right; right; right; exists l; auto. }
  destruct (String.eqb (ws_type e) "query_result"); [right; left; reflexivity|].
  destruct (String.eqb (ws_type e) "routing_decision"); [auto|].
  destruct (String.eqb (ws_type e) "error"); auto.
Qed.

Lemma handle_response_queryResults r st :
  queryResults (handle_response r st) = queryResults st.
Proof.
  destruct r as [t|resp tool|m]; simpl; auto.
  destruct (str_truthy resp), tool; reflexivity.
Qed.

Lemma sendMessage_queryResults m st :
  queryResults (fst (sendMessage m st)) = queryResults st \/
  queryResults (fst (sendMessage m st)) = [].
Proof.
  unfold sendMessage.
  destruct (negb (is_open (readyState st))); [left; reflexivity|].
  destruct (negb (str_truthy (userId st))); [left; reflexivity|].
  destruct (String.eqb (trim m) ""); [left; reflexivity|].
  destruct (parseUserMessageWithContext m) as [u [c|]]; right; reflexivity.
Qed.

Lemma same_triple_spec a b : same_triple a b = true <-> triple a = triple b.
Proof.
  unfold same_triple, triple.
  rewrite !andb_true_iff, !String.eqb_eq, opt_str_eqb_spec.
  split; [intros [[-> ->] ->]; reflexivity|intro H; inversion H; auto].
Qed.

Lemma triple_eqb_spec a b : triple_eqb a b = true <-> a = b.
Proof.
  destruct a as [[o1 q1] p1], b as [[o2 q2] p2]; simpl.
  rewrite !andb_true_iff, !String.eqb_eq, opt_str_eqb_spec.
  split; [intros [[-> ->] ->]; reflexivity|intro H; inversion H; auto].
Qed.

Lemma existsb_same_triple qr l :
  existsb (same_triple qr) l = true <-> In (triple qr) (map triple l).
Proof.
  rewrite existsb_exists, in_map_iff. split.
  - intros [x [Hx Hs]]. exists x; split; auto. symmetry; apply same_triple_spec; auto.
  - intros [x [Hs Hx]]. exists x; split; auto. apply same_triple_spec; auto.
Qed.

Lemma add_query_result_nodup qr l :
  NoDupTriples l -> NoDupTriples (add_query_result qr l).
Proof.
  unfold NoDupTriples, add_query_result. intro H.
  destruct (existsb (same_triple qr) l) eqn:He; [exact H|].
  rewrite map_app. simpl. apply NoDup_app; auto.
  - constructor; [simpl; tauto|constructor].
  - intros x Hx [<-|[]]. apply existsb_same_triple in Hx. congruence.
Qed.

Lemma NoDupTriples_nil : NoDupTriples [].
Proof. constructor. Qed.

Lemma count_triple_app t l1 l2 :
  count_triple t (l1 ++ l2) = count_triple t l1 + count_triple t l2.
Proof. unfold count_triple. rewrite filter_app, length_app. reflexivity. Qed.

Lemma count_triple_cons t x l :
  count_triple t (x :: l) =
  (if triple_eqb (triple x) t then 1 else 0) + count_triple t l.
Proof.
  unfold count_triple; cbn [filter].
  destruct (triple_eqb (triple x) t); reflexivity.
Qed.

Lemma count_triple_zero t l :
  ~ In t (map triple l) -> count_triple t l = 0.
Proof.
  induction l as [|x l IH]; [reflexivity|]. cbn [map In]. intros Hn.
  rewrite count_triple_cons.
  destruct (triple_eqb (triple x) t) eqn:Hx.
  - apply triple_eqb_spec in Hx. exfalso; auto.
  - simpl. apply IH. auto.
Qed.

Lemma count_triple_le1 t l : NoDupTriples l -> count_triple t l <= 1.
Proof.
  unfold NoDupTriples. induction l as [|x l IH]; intro H; [unfold count_triple; simpl; lia|].
  cbn [map] in H. inversion H as [|? ? Hn Hnd]; subst.
  rewrite count_triple_cons.
  destruct (triple_eqb (triple x) t) eqn:Hx.
  - apply triple_eqb_spec in Hx. subst t.
    rewrite (count_triple_zero (triple x) l Hn). lia.
  - simpl. apply IH; auto.
Qed.

Lemma count_triple_in t l : In t (map triple l) -> 1 <= count_triple t l.
Proof.
  induction l as [|x l IH]; cbn [map In]; [tauto|]. intros Hin.
  rewrite count_triple_cons.
  destruct (triple_eqb (triple x) t) eqn:Hx; [lia|].
  destruct Hin as [Heq|Hin].
  - subst t. assert (triple_eqb (triple x) (triple x) = true) by (apply triple_eqb_spec; auto).
    congruence.
  - simpl. apply IH; auto.
Qed.

Lemma add_query_result_count qr l :
  NoDupTriples l -> count_triple (triple qr) (add_query_result qr l) = 1.
Proof.
  intro H. unfold add_query_result.
  destruct (existsb (same_triple qr) l) eqn:He.
  - apply existsb_same_triple in He.
    pose proof (count_triple_in _ _ He). pose proof (count_triple_le1 (triple qr) l H). lia.
  - rewrite count_triple_app. rewrite count_triple_zero.
    + assert (Hq : triple_eqb (triple qr) (triple qr) = true) by (apply triple_eqb_spec; auto).
      unfold count_triple; cbn [filter]. rewrite Hq. reflexivity.
    + intro Hin. apply existsb_same_triple in Hin. congruence.
Qed.

Lemma run_ops_cons op ops st : run_ops (op :: ops) st = run_ops ops (run_op op st).
Proof. reflexivity. Qed.

Lemma run_ops_nil st : run_ops [] st = st.
Proof. reflexivity. Qed.

Lemma handle_event_query_result e st :
  ws_type e = "query_result" ->
  queryResults (handle_event e st) = add_query_result (queryResultData e) (queryResults st).
Proof. intros Hty. unfold handle_event; rewrite Hty. reflexivity. Qed.

(** [C1] *)
(** Claim C1 (as amended): every operation keeps the result list free of
    two entries with the same (objective, query, platform) triple, except
    a bulk [executed_queries] payload, which is taken as it is and so keeps
    the invariant only when the results it builds are themselves free of
    duplicates; from a list satisfying the invariant, any non-empty run of
    [query_result] events sharing one triple leaves exactly one entry with
    that triple. *)
Theorem result_triples_dedup :
  (forall (op : Op) (st : ChatState),
     NoDupTriples (queryResults st) ->
     (forall l, op_bulk op = Some l -> NoDupTriples (bulk_results l)) ->
     NoDupTriples (queryResults (run_op op st))) /\
  (forall (evs : list WebSocketMessage) (st : ChatState) t,
     NoDupTriples (queryResults st) -> evs <> [] ->
     Forall (fun e => ws_type e = "query_result" /\ triple (queryResultData e) = t) evs ->
     count_triple t (queryResults (run_ops (map OpEvent evs) st)) = 1
     /\ NoDupTriples (queryResults (run_ops (map OpEvent evs) st))).
Proof.
  split.
  - intros op st Hinv Hbulk. destruct op as [e|m|r| | |]; simpl.
    + destruct (handle_event_queryResults e st) as [H|[H|[H|[l [Hl H]]]]]; rewrite H.
      * exact Hinv.
      * apply add_query_result_nodup; exact Hinv.
      * apply NoDupTriples_nil.
      * apply Hbulk; exact Hl.
    + destruct (sendMessage_queryResults m st) as [H|H]; rewrite H;
        [exact Hinv|apply NoDupTriples_nil].
    + rewrite handle_response_queryResults; exact Hinv.
    + exact Hinv.
    + exact Hinv.
    + exact Hinv.
  - intros evs; induction evs as [|e evs IH]; intros st t Hinv Hne Hall; [congruence|].
    inversion Hall as [|? ? [Hty Ht] Hrest]; subst.
    change (map OpEvent (e :: evs)) with (OpEvent e :: map OpEvent evs).
    rewrite run_ops_cons.
    assert (Hq : queryResults (run_op (OpEvent e) st)
                 = add_query_result (queryResultData e) (queryResults st))
      by (apply handle_event_query_result; exact Hty).
    assert (Hinv' : NoDupTriples (queryResults (run_op (OpEvent e) st)))
      by (rewrite Hq; apply add_query_result_nodup; exact Hinv).
    destruct evs as [|e' evs'].
    + cbn [map]; rewrite run_ops_nil. split; [|exact Hinv']. rewrite Hq. apply add_query_result_count; exact Hinv.
    + apply IH; auto. discriminate.
Qed.

(* ------------------------------------------------------------------ *)
(** ** Algebra of plain objects *)

Lemma get_not_has_key k o : has_key k o = false -> get k o = JUndef.
Proof.
  induction o as [|[k1 v1] o IH]; simpl; [auto|].
  intro H; apply orb_false_iff in H as [H1 H2]. rewrite H1. auto.
Qed.

Lemma get_app k (o1 o2 : obj) :
  get k (o1 ++ o2)%list = if has_key k o1 then get k o1 else get k o2.
Proof.
  induction o1 as [|[k1 v1] o1 IH]; simpl; [reflexivity|].
  destruct (String.eqb k k1); simpl; auto.
Qed.

Lemma has_key_app k (o1 o2 : obj) : has_key k (o1 ++ o2)%list = has_key k o1 || has_key k o2.
Proof.
  induction o1 as [|[k1 v1] o1 IH]; simpl; [reflexivity|].
  rewrite IH, orb_assoc. reflexivity.
Qed.

Ltac str_cases :=
  repeat match goal with
         | |- context [String.eqb ?a ?b] => destruct (String.eqb_spec a b); subst
         | H : context [String.eqb ?a ?b] |- _ => destruct (String.eqb_spec a b); subst
         end.

Lemma get_map_replace k k' v o :
  get k (map (fun '(k1, v1) => if String.eqb k' k1 then (k1, v) else (k1, v1)) o) =
  if String.eqb k k' then (if has_key k' o then v else get k o) else get k o.
Proof.
  induction o as [|[k1 v1] o IH]; simpl.
  - destruct (String.eqb k k'); reflexivity.
  - destruct (String.eqb_spec k' k1); subst; simpl.
    + destruct (String.eqb_spec k k1); subst; simpl; [reflexivity|].
      rewrite IH. destruct (String.eqb_spec k k1); [congruence|reflexivity].
    + destruct (String.eqb_spec k k1); subst; simpl.
      * destruct (String.eqb_spec k1 k'); [congruence|reflexivity].
      * rewrite IH. destruct (String.eqb_spec k k'); subst; [|reflexivity].
        destruct (String.eqb_spec k' k1); [congruence|]. simpl. reflexivity.
Qed.

Lemma has_key_map_replace k k' v o :
  has_key k (map (fun '(k1, v1) => if String.eqb k' k1 then (k1, v) else (k1, v1)) o) =
  has_key k o.
Proof.
  induction o as [|[k1 v1] o IH]; simpl; [reflexivity|].
  destruct (String.eqb k' k1); simpl; rewrite IH; reflexivity.
Qed.

Lemma get_set k k' v o :
  get k (set k' v o) = if String.eqb k k' then v else get k o.
Proof.
  unfold set. destruct (has_key k' o) eqn:Hh.
  - rewrite get_map_replace, Hh. reflexivity.
  - rewrite get_app. destruct (has_key k o) eqn:Hk.
    + destruct (String.eqb_spec k k'); subst; [congruence|reflexivity].
    + simpl. rewrite (get_not_has_key k o Hk).
      destruct (String.eqb k k'); reflexivity.
Qed.

Lemma has_key_set k k' v o :
  has_key k (set k' v o) = String.eqb k k' || has_key k o.
Proof.
  unfold set. destruct (has_key k' o) eqn:Hh.
  - rewrite has_key_map_replace.
    destruct (String.eqb_spec k k'); subst; simpl; [rewrite Hh|]; reflexivity.
  - rewrite has_key_app. simpl. rewrite orb_false_r.
    destruct (String.eqb k k'), (has_key k o); reflexivity.
Qed.


Lemma spread_app d (l1 l2 : obj) : spread d (l1 ++ l2)%list = spread (spread d l1) l2.
Proof. unfold spread. apply fold_left_app. Qed.

Lemma spread_cons d k v l : spread d ((k, v) :: l) = spread (set k v d) l.
Proof. reflexivity. Qed.

Lemma has_key_spread k d src :
  has_key k (spread d src) = has_key k d || has_key k src.
Proof.
  revert d; induction src as [|[k1 v1] src IH]; intro d.
  - simpl; rewrite orb_false_r; reflexivity.
  - rewrite spread_cons, IH, has_key_set. cbn [has_key].
    destruct (String.eqb k k1), (has_key k d), (has_key k src); reflexivity.
Qed.

Lemma get_spread_notin k d src :
  has_key k src = false -> get k (spread d src) = get k d.
Proof.
  revert d; induction src as [|[k1 v1] src IH]; intros d H; [reflexivity|].
  cbn [has_key] in H. apply orb_false_iff in H as [H1 H2].
  rewrite spread_cons, IH by exact H2. rewrite get_set, H1. reflexivity.
Qed.

Lemma has_key_omit k L o :
  has_key k (omit L o) = negb (existsb (String.eqb k) L) && has_key k o.
Proof.
  induction o as [|[k1 v1] o IH]; simpl; [rewrite andb_false_r; reflexivity|].
  destruct (existsb (String.eqb k1) L) eqn:E; simpl.
  - rewrite IH. destruct (String.eqb k k1) eqn:Ek; simpl.
    + apply String.eqb_eq in Ek; subst k1. rewrite E. reflexivity.
    + reflexivity.
  - rewrite IH. destruct (String.eqb k k1) eqn:Ek; simpl.
    + apply String.eqb_eq in Ek; subst k1. rewrite E. reflexivity.
    + reflexivity.
Qed.

Lemma get_omit k L o :
  existsb (String.eqb k) L = false -> get k (omit L o) = get k o.
Proof.
  intro HL. induction o as [|[k1 v1] o IH]; simpl; [reflexivity|].
  destruct (existsb (String.eqb k1) L) eqn:E; simpl.
  - destruct (String.eqb k k1) eqn:Ek.
    + apply String.eqb_eq in Ek; subst k1. congruence.
    + exact IH.
  - rewrite IH. reflexivity.
Qed.

Lemma omit_app L (o1 o2 : obj) : omit L (o1 ++ o2)%list = (omit L o1 ++ omit L o2)%list.
Proof. apply filter_app. Qed.

Lemma omit_set k v L o :
  omit L (set k v o) =
  if existsb (String.eqb k) L then omit L o else set k v (omit L o).
Proof.
  unfold set. rewrite has_key_omit.
  destruct (existsb (String.eqb k) L) eqn:EL; simpl.
  - destruct (has_key k o).
    + induction o as [|[k1 v1] o IH]; simpl; [reflexivity|].
      destruct (String.eqb k k1) eqn:Ek; simpl.
      * apply String.eqb_eq in Ek; subst k1. rewrite EL. simpl. exact IH.
      * destruct (existsb (String.eqb k1) L); simpl; rewrite IH; reflexivity.
    + rewrite omit_app. simpl. rewrite EL. simpl. apply app_nil_r.
  - destruct (has_key k o).
    + induction o as [|[k1 v1] o IH]; simpl; [reflexivity|].
      destruct (String.eqb k k1) eqn:Ek; simpl.
      * apply String.eqb_eq in Ek; subst k1. rewrite EL. simpl.
        rewrite String.eqb_refl. f_equal. exact IH.
      * destruct (existsb (String.eqb k1) L); simpl; rewrite ?Ek, IH; reflexivity.
    + rewrite omit_app. simpl. rewrite EL. reflexivity.
Qed.

Lemma omit_spread L d src : omit L (spread d src) = spread (omit L d) (omit L src).
Proof.
  revert d; induction src as [|[k v] src IH]; intro d; [reflexivity|].
  rewrite spread_cons, IH, omit_set. cbn [omit filter].
  destruct (existsb (String.eqb k) L); reflexivity.
Qed.

Lemma omit_none L o :
  (forall k, In k L -> has_key k o = false) -> omit L o = o.
Proof.
  intro H. induction o as [|[k1 v1] o IH]; simpl; [reflexivity|].
  destruct (existsb (String.eqb k1) L) eqn:E; simpl.
  - apply existsb_exists in E as [k [Hk Ek]]. apply String.eqb_eq in Ek; subst k.
    specialize (H k1 Hk). simpl in H. rewrite String.eqb_refl in H. discriminate.
  - f_equal. apply IH. intros k Hk. specialize (H k Hk). simpl in H.
    apply orb_false_iff in H as [_ H]; exact H.
Qed.

Lemma omit_omit L1 L2 o :
  (forall k, In k L2 -> In k L1) -> omit L1 (omit L2 o) = omit L1 o.
Proof.
  intro Hsub. induction o as [|[k1 v1] o IH]; simpl; [reflexivity|].
  destruct (existsb (String.eqb k1) L2) eqn:E2; simpl.
  - destruct (existsb (String.eqb k1) L1) eqn:E1; simpl; [exact IH|].
    apply existsb_exists in E2 as [k [Hk Ek]]. apply String.eqb_eq in Ek; subst k.
    assert (existsb (String.eqb k1) L1 = true)
      by (apply existsb_exists; exists k1; split; [auto|apply String.eqb_refl]).
    congruence.
  - destruct (existsb (String.eqb k1) L1); simpl; rewrite IH; reflexivity.
Qed.

Lemma spread_fresh d src :
  NoDup (map fst (d ++ src)%list) -> spread d src = (d ++ src)%list.
Proof.
  revert d; induction src as [|[k v] src IH]; intros d H; [simpl; rewrite app_nil_r; reflexivity|].
  rewrite spread_cons. unfold set.
  assert (Hk : has_key k d = false).
  { rewrite map_app in H. simpl in H. apply NoDup_remove_2 in H.
    destruct (has_key k d) eqn:E; [|reflexivity]. exfalso; apply H.
    apply in_or_app; left. clear -E. induction d as [|[k1 v1] d IH]; simpl in *; [discriminate|].
    apply orb_true_iff in E as [E|E]; [left; symmetry; apply String.eqb_eq; exact E|right; auto]. }
  rewrite Hk. rewrite IH; [rewrite <- app_assoc; reflexivity|].
  rewrite <- app_assoc. exact H.
Qed.

(* ------------------------------------------------------------------ *)
(** ** The chart normalizer *)

(** [finalGraphSuggestionForViewer] reads its input only through the
    fields other than [x_axis] and [y_axis], and those two fields. *)
Lemma finalGraph_ext o1 o2 :
  omit ["x_axis"; "y_axis"] o1 = omit ["x_axis"; "y_axis"] o2 ->
  get "x_axis" o1 = get "x_axis" o2 ->
  get "y_axis" o1 = get "y_axis" o2 ->
  finalGraphSuggestionForViewer o1 = finalGraphSuggestionForViewer o2.
Proof.
  intros Ho Hx Hy.
  assert (G : forall k, existsb (String.eqb k) ["x_axis"; "y_axis"] = false ->
                        get k o1 = get k o2).
  { intros k Hk. rewrite <- (get_omit k _ o1 Hk), <- (get_omit k _ o2 Hk), Ho. reflexivity. }
  assert (R : omit viewer_omitted o1 = omit viewer_omitted o2).
  { rewrite <- (omit_omit viewer_omitted ["x_axis"; "y_axis"] o1),
            <- (omit_omit viewer_omitted ["x_axis"; "y_axis"] o2), Ho; [reflexivity| |];
      intros k [<-|[<-|[]]]; simpl; auto. }
  unfold finalGraphSuggestionForViewer. fold viewer_omitted.
  rewrite Hx, Hy, R.
  rewrite (G "type"), (G "title"), (G "description"), (G "image_base64"),
          (G "original_suggestion"), (G "names"), (G "values"), (G "color_column"),
          (G "chart_type") by reflexivity.
  reflexivity.
Qed.

Lemma spread_nil (d : obj) : spread d [] = d.
Proof. reflexivity. Qed.

Lemma no_key_spec ks o :
  no_key ks o = true -> forall k, In k ks -> has_key k o = false.
Proof.
  unfold no_key. intros H k Hk. rewrite forallb_forall in H.
  apply negb_true_iff, H, Hk.
Qed.

Lemma nodup_keys_spec (o : obj) : nodup_keys o = true -> NoDup (map fst o).
Proof.
  induction o as [|[k v] o IH]; cbn [nodup_keys]; intros H; [constructor|].
  apply andb_true_iff in H as [H1 H2]. constructor; [|apply IH, H2].
  intro Hin. apply negb_true_iff in H1.
  assert (has_key k o = true) as Hk.
  { clear - Hin. induction o as [|[k1 v1] o IH]; [destruct Hin|].
    destruct Hin as [E|Hin]; cbn [has_key]; apply orb_true_iff.
    - left. cbn in E. subst. apply String.eqb_refl.
    - right. apply IH, Hin. }
  congruence.
Qed.

Lemma mapSuggestion_nested_flat (pre post : obj) :
  no_key ["columns"; "x_axis"; "y_axis"] pre = true ->
  no_key ["columns"; "x_axis"; "y_axis"] post = true ->
  let nested := (pre ++ ("columns", nested_xy) :: post)%list in
  let flat := (pre ++ ("x_axis", JStr "date") :: ("y_axis", JStr "revenue") :: post)%list in
  omit ["x_axis"; "y_axis"] (mapSuggestion nested)
    = omit ["x_axis"; "y_axis"] (mapSuggestion flat) /\
  get "x_axis" (mapSuggestion nested) = JStr "date" /\
  get "x_axis" (mapSuggestion flat) = JStr "date" /\
  get "y_axis" (mapSuggestion nested) = JStr "revenue" /\
  get "y_axis" (mapSuggestion flat) = JStr "revenue".
Proof.
  intros Hpre0 Hpost0 nested flat.
  pose proof (no_key_spec _ _ Hpre0) as Hpre. pose proof (no_key_spec _ _ Hpost0) as Hpost.
  assert (Cn : get "columns" nested = nested_xy).
  { unfold nested. rewrite get_app, (Hpre "columns") by (simpl; auto).
    simpl. reflexivity. }
  assert (Cf : get "columns" flat = JUndef).
  { apply get_not_has_key. unfold flat. rewrite has_key_app.
    rewrite (Hpre "columns") by (simpl; auto). simpl.
    apply (Hpost "columns"); simpl; auto. }
  assert (On : omit ["columns"] nested = (pre ++ post)%list).
  { unfold nested. rewrite omit_app. simpl.
    rewrite !omit_none; [reflexivity| |];
      intros k [<-|[]]; [apply Hpost|apply Hpre]; simpl; auto. }
  assert (Of : omit ["columns"] flat = flat).
  { apply omit_none. intros k [<-|[]]. unfold flat.
    rewrite has_key_app, (Hpre "columns") by (simpl; auto). simpl.
    apply (Hpost "columns"); simpl; auto. }
  assert (Obj : get "objective" flat = get "objective" (pre ++ post)%list).
  { unfold flat. rewrite !get_app. destruct (has_key "objective" pre); reflexivity. }
  set (V := let o := get "objective" (pre ++ post)%list in
            if truthy o then o else JStr "Unknown Objective").
  assert (Mn : mapSuggestion nested =
               set "y_axis" (JStr "revenue") (set "x_axis" (JStr "date")
                 (set "objective" V (spread [] (pre ++ post)%list)))).
  { unfold mapSuggestion. rewrite Cn, On. reflexivity. }
  assert (Mf : mapSuggestion flat = set "objective" V (spread [] flat)).
  { unfold mapSuggestion. rewrite Cf, Of, Obj. reflexivity. }
  rewrite Mn, Mf. split; [|split; [|split; [|split]]].
  - rewrite !omit_set. cbn [existsb String.eqb]. simpl existsb.
    rewrite !omit_spread. f_equal. f_equal.
    unfold flat. rewrite !omit_app. reflexivity.
  - rewrite !get_set. reflexivity.
  - rewrite get_set. change ("x_axis" =? "objective") with false. cbv iota.
    replace flat with ((pre ++ [("x_axis", JStr "date"); ("y_axis", JStr "revenue")]) ++ post)%list
      by (unfold flat; rewrite <- app_assoc; reflexivity).
    rewrite spread_app, get_spread_notin.
    + rewrite spread_app, spread_cons, spread_cons, spread_nil.
      rewrite !get_set. reflexivity.
    + apply Hpost; simpl; auto.
  - rewrite !get_set. reflexivity.
  - rewrite get_set. change ("y_axis" =? "objective") with false. cbv iota.
    replace flat with ((pre ++ [("x_axis", JStr "date"); ("y_axis", JStr "revenue")]) ++ post)%list
      by (unfold flat; rewrite <- app_assoc; reflexivity).
    rewrite spread_app, get_spread_notin.
    + rewrite spread_app, spread_cons, spread_cons, spread_nil.
      rewrite !get_set. reflexivity.
    + apply Hpost; simpl; auto.
Qed.

Lemma finalGraph_xy (o : obj) :
  has_key "columns" o = false ->
  get "x_axis" o = JStr "date" -> get "y_axis" o = JStr "revenue" ->
  has_key "names" o = false -> has_key "values" o = false ->
  has_key "color_column" o = false ->
  finalGraphSuggestionForViewer o <> NThrow /\
  forall p, finalGraphSuggestionForViewer o = NOut p -> is_plot_form p = true ->
            get "columns" p = nested_xy.
Proof.
  intros Hc Hx Hy Hn Hv Hcc.
  unfold finalGraphSuggestionForViewer.
  destruct (js_eq_str (get "type" o) "image").
  { split; [discriminate|]. intros p Hp; injection Hp as <-. cbn. discriminate. }
  rewrite Hx, Hy, !(get_not_has_key _ o) by assumption.
  set (rest := omit _ o).
  set (p0 := spread _ rest).
  assert (C0 : get "columns" p0 = JObj []).
  { unfold p0. rewrite get_spread_notin; [reflexivity|].
    unfold rest. rewrite has_key_omit. rewrite Hc. reflexivity. }
  cbn [is_string is_array orb assign_if].
  unfold assign_column. rewrite C0.
  rewrite get_set, String.eqb_refl.
  change (set "y" (JStr "revenue") (set "x" (JStr "date") [])) with
    [("x", JStr "date"); ("y", JStr "revenue")].
  set (p1 := set "columns" _ (set "columns" _ p0)).
  assert (C1 : get "columns" p1 = nested_xy).
  { unfold p1. rewrite get_set, String.eqb_refl. reflexivity. }
  split.
  - destruct (_ || _); [destruct (js_eq_str _ "none")|]; discriminate.
  - intros p Hp Hpl.
    destruct (js_eq_str (get "type" p1) "image" || js_eq_str (get "type" p1) "none") eqn:Ht.
    + destruct (js_eq_str (get "type" p1) "none") eqn:Hn'; [|discriminate].
      injection Hp as <-. cbn in Hpl. discriminate.
    + injection Hp as <-. exact C1.
Qed.


Lemma has_key_mapSuggestion k o :
  k <> "x_axis" -> k <> "y_axis" -> k <> "objective" ->
  has_key k (mapSuggestion o) = negb (String.eqb k "columns") && has_key k o.
Proof.
  intros H1 H2 H3.
  apply String.eqb_neq in H1, H2, H3.
  unfold mapSuggestion.
  destruct (truthy (get_opt "y" _)), (truthy (get_opt "x" _));
    rewrite ?has_key_set, ?H1, ?H2, H3, has_key_spread, has_key_omit;
    cbn [existsb orb]; rewrite orb_false_r; reflexivity.
Qed.

(** [C7] *)
(** Claim C7: a suggestion carrying the column roles nested as
    [columns: {x: "date", y: "revenue"}] and the same suggestion carrying them
    flat as [x_axis: "date", y_axis: "revenue"] (no other column role, no
    [columns] field elsewhere) normalize to the same result; it never
    throws, and when it is the plot form its [columns] object is
    [{x: "date", y: "revenue"}]. *)
Theorem nested_flat_same_chart (pre post : obj) :
  no_key ["columns"; "x_axis"; "y_axis"; "names"; "values"; "color_column"] pre = true ->
  no_key ["columns"; "x_axis"; "y_axis"; "names"; "values"; "color_column"] post = true ->
  let nested := (pre ++ ("columns", nested_xy) :: post)%list in
  let flat := (pre ++ ("x_axis", JStr "date") :: ("y_axis", JStr "revenue") :: post)%list in
  normalize nested = normalize flat /\
  normalize nested <> NThrow /\
  forall p, normalize nested = NOut p -> is_plot_form p = true ->
            get "columns" p = nested_xy.
Proof.
  intros Hpre0 Hpost0 nested flat.
  pose proof (no_key_spec _ _ Hpre0) as Hpre. pose proof (no_key_spec _ _ Hpost0) as Hpost.
  destruct (mapSuggestion_nested_flat pre post) as (Ho & Hxn & Hxf & Hyn & Hyf).
  { unfold no_key. cbn [forallb]. rewrite !Hpre by (simpl; tauto). reflexivity. }
  { unfold no_key. cbn [forallb]. rewrite !Hpost by (simpl; tauto). reflexivity. }
  unfold normalize.
  assert (Hk : forall k, In k ["names"; "values"; "color_column"] ->
                         has_key k (mapSuggestion nested) = false).
  { intros k Hk. rewrite has_key_mapSuggestion
      by (intros ->; simpl in Hk; intuition discriminate).
    unfold nested. rewrite has_key_app, (Hpre k) by (simpl in *; tauto).
    cbn [has_key orb]. rewrite (Hpost k) by (simpl in *; tauto).
    destruct (String.eqb k "columns"); reflexivity. }
  assert (Hc : has_key "columns" (mapSuggestion nested) = false).
  { rewrite has_key_mapSuggestion by discriminate. reflexivity. }
  destruct (finalGraph_xy (mapSuggestion nested)) as [Hnt Hplot]; auto;
    try (apply Hk; simpl; tauto).
  split; [|split; assumption].
  apply finalGraph_ext; unfold nested, flat; congruence.
Qed.

Lemma assign_if_spec b k v p c :
  get "columns" p = JObj c ->
  exists p', assign_if b k v (Some p) = Some p' /\
             get "columns" p' = JObj (if b then set k v c else c) /\
             get "type" p' = get "type" p.
Proof.
  intro Hc. destruct b; cbn [assign_if].
  - unfold assign_column. rewrite Hc. eexists; split; [reflexivity|].
    rewrite !get_set. split; reflexivity.
  - exists p. auto.
Qed.

Lemma finalGraph_roles (o : obj) :
  has_key "columns" o = false ->
  finalGraphSuggestionForViewer o <> NThrow /\
  forall p, finalGraphSuggestionForViewer o = NOut p -> is_plot_form p = true ->
    exists cols, get "columns" p = JObj cols /\
      role_copied cols "x" (get "x_axis" o) (is_string (get "x_axis" o)) /\
      role_copied cols "y" (get "y_axis" o)
        (is_string (get "y_axis" o) || is_array (get "y_axis" o)) /\
      role_copied cols "names" (get "names" o) (is_string (get "names" o)) /\
      role_copied cols "values" (get "values" o) (is_string (get "values" o)) /\
      role_copied cols "color" (get "color_column" o) (is_string (get "color_column" o)) /\
      (forall k, has_key k cols = true -> In k ["x"; "y"; "names"; "values"; "color"]).
Proof.
  intros Hc.
  unfold finalGraphSuggestionForViewer.
  destruct (js_eq_str (get "type" o) "image").
  { split; [discriminate|]. intros p Hp; injection Hp as <-. cbn. discriminate. }
  set (rest := omit _ o).
  set (p0 := spread _ rest).
  assert (C0 : get "columns" p0 = JObj []).
  { unfold p0. rewrite get_spread_notin; [reflexivity|].
    unfold rest. rewrite has_key_omit. rewrite Hc. reflexivity. }
  generalize (get "x_axis" o) as vx; generalize (get "y_axis" o) as vy;
  generalize (get "names" o) as vn; generalize (get "values" o) as vv;
  generalize (get "color_column" o) as vc. intros vc vv vn vy vx.
  destruct (assign_if_spec (is_string vx) "x" vx p0 _ C0) as (p1 & E1 & C1 & T1).
  rewrite E1.
  destruct (assign_if_spec (is_string vy || is_array vy) "y" vy p1 _ C1) as (p2 & E2 & C2 & T2).
  rewrite E2.
  destruct (assign_if_spec (is_string vn) "names" vn p2 _ C2) as (p3 & E3 & C3 & T3).
  rewrite E3.
  destruct (assign_if_spec (is_string vv) "values" vv p3 _ C3) as (p4 & E4 & C4 & T4).
  rewrite E4.
  destruct (assign_if_spec (is_string vc) "color" vc p4 _ C4) as (p5 & E5 & C5 & T5).
  rewrite E5.
  split.
  { destruct (js_eq_str (get "type" p5) "image" || js_eq_str (get "type" p5) "none");
      [destruct (js_eq_str (get "type" p5) "none")|]; discriminate. }
  intros p Hp Hpl.
  destruct (js_eq_str (get "type" p5) "image" || js_eq_str (get "type" p5) "none").
  { destruct (js_eq_str (get "type" p5) "none"); [|discriminate].
    injection Hp as <-. cbn in Hpl. discriminate. }
  injection Hp as <-.
  eexists; split; [exact C5|].
  unfold role_copied.
  destruct (is_string vx), (is_string vy || is_array vy), (is_string vn),
    (is_string vv), (is_string vc); cbn;
    repeat split; try (intros _; reflexivity); try discriminate;
    intros k Hk; repeat (apply orb_true_iff in Hk as [Hk|Hk]; [apply String.eqb_eq in Hk; subst; simpl; tauto|]); discriminate.
Qed.

Lemma NoDup_omit L (o : obj) : NoDup (map fst o) -> NoDup (map fst (omit L o)).
Proof.
  induction o as [|[k v] o IH]; intros H; [constructor|].
  inversion H as [|? ? Hni Hnd]; subst. unfold omit; cbn [filter].
  destruct (negb (existsb (String.eqb k) L)); [cbn [map fst]; constructor|]; auto.
  intro Hin; apply Hni. apply in_map_iff in Hin as [[k' v'] [Heq Hin]].
  cbn in Heq; subst k'. apply filter_In in Hin as [Hin _].
  apply (in_map fst) in Hin. exact Hin.
Qed.

Lemma mapSuggestion_body raw :
  NoDup (map fst raw) ->
  forall k, k <> "x_axis" -> k <> "y_axis" -> k <> "objective" ->
  get k (mapSuggestion raw) = get k (omit ["columns"] raw) /\
  get "x_axis" (mapSuggestion raw) = x_source raw /\
  get "y_axis" (mapSuggestion raw) = y_source raw.
Proof.
  intros Hnd k H1 H2 H3.
  apply String.eqb_neq in H1, H2, H3.
  unfold mapSuggestion, x_source, y_source.
  rewrite (spread_fresh [] (omit ["columns"] raw)) by (apply NoDup_omit; exact Hnd).
  cbn [app].
  destruct (truthy (get_opt "y" (get "columns" raw))),
    (truthy (get_opt "x" (get "columns" raw)));
    rewrite ?get_set, ?H1, ?H2, ?H3; cbv [String.eqb Ascii.eqb Bool.eqb];
    rewrite ?(get_omit "x_axis" ["columns"]), ?(get_omit "y_axis" ["columns"]) by reflexivity;
    auto.
Qed.

(** [C8] *)
(** Claim C8 (as amended): for a raw suggestion with distinct keys, normalization never
    throws, and a plot-form result has a [columns] object whose roles are
    copied as follows: [x] from the nested [columns.x] when truthy, else
    from the flat [x_axis], kept only when a string; [y] likewise from
    [columns.y] or [y_axis], kept only when a string or an array; [names],
    [values] and [color] from the flat [names], [values] and [color_column]
    fields only, kept only when strings. No other key appears. *)
Theorem normalize_column_roles (raw : obj) :
  nodup_keys raw = true ->
  normalize raw <> NThrow /\
  forall p, normalize raw = NOut p -> is_plot_form p = true ->
    exists cols, get "columns" p = JObj cols /\
      role_copied cols "x" (x_source raw) (is_string (x_source raw)) /\
      role_copied cols "y" (y_source raw)
        (is_string (y_source raw) || is_array (y_source raw)) /\
      role_copied cols "names" (get "names" raw) (is_string (get "names" raw)) /\
      role_copied cols "values" (get "values" raw) (is_string (get "values" raw)) /\
      role_copied cols "color" (get "color_column" raw)
        (is_string (get "color_column" raw)) /\
      (forall k, has_key k cols = true -> In k ["x"; "y"; "names"; "values"; "color"]).
Proof.
  intros Hnd0. pose proof (nodup_keys_spec raw Hnd0) as Hnd. unfold normalize.
  assert (Hc : has_key "columns" (mapSuggestion raw) = false).
  { rewrite has_key_mapSuggestion by discriminate. reflexivity. }
  destruct (mapSuggestion_body raw Hnd "names") as (Hn & Hx & Hy); try discriminate.
  destruct (mapSuggestion_body raw Hnd "values") as (Hv & _ & _); try discriminate.
  destruct (mapSuggestion_body raw Hnd "color_column") as (Hcc & _ & _); try discriminate.
  rewrite get_omit in Hn, Hv, Hcc by reflexivity.
  destruct (finalGraph_roles (mapSuggestion raw) Hc) as [Hnt Hroles].
  rewrite Hx, Hy, Hn, Hv, Hcc in Hroles.
  split; assumption.
Qed.

(** [C9] *)
(** Claim C9 (as amended): given a result whose rows are [row0 :: rows], a bar, line or
    scatter suggestion yields plot parameters exactly when its [x] column
    name and its [y] column name (the first one when [y] is a list) are
    truthy and the cells of [row0] under them are truthy; a pie suggestion
    exactly when the [names] and [values] column names and their cells in
    [row0] are truthy. When no parameters come out, the result has no
    error and nothing is processing, a suggestion of a truthy type other
    than image or none renders the "unavailable" state. *)
Theorem plotParams_requirements (gs : obj) (r : QueryResult) (row0 : row) (rows : list row) :
  dataframe r = (row0 :: rows)%list ->
  let columns := get "columns" gs in
  let xCol := get_opt "x" columns in
  let yCol := first_if_array (get_opt "y" columns) in
  let nameCol := get_opt "names" columns in
  let valCol := get_opt "values" columns in
  (forall t, In t ["bar"; "line"; "scatter"] -> get "type" gs = JStr t ->
     is_some (plotParams (Some gs) (Some r)) =
       truthy xCol && truthy yCol && truthy (cell row0 xCol) && truthy (cell row0 yCol)) /\
  (get "type" gs = JStr "pie" ->
     is_some (plotParams (Some gs) (Some r)) =
       truthy nameCol && truthy valCol && truthy (cell row0 nameCol)
       && truthy (cell row0 valCol)) /\
  (forall isInitialStateProp,
     plotParams (Some gs) (Some r) = None -> str_truthy (error r) = false ->
     truthy (get "type" gs) = true ->
     js_eq_str (get "type" gs) "image" = false -> js_eq_str (get "type" gs) "none" = false ->
     graphContent (Some r) (Some gs) false isInitialStateProp = CUnavailable).
Proof.
  intros Hdf columns xCol yCol nameCol valCol.
  split; [|split].
  - intros t Ht Hty. unfold plotParams. rewrite Hty, Hdf.
    destruct Ht as [<-|[<-|[<-|[]]]]; cbn [js_eq_str truthy String.eqb Ascii.eqb Bool.eqb orb negb];
      fold columns xCol; fold yCol;
      destruct (truthy xCol), (truthy yCol), (truthy (cell row0 xCol)), (truthy (cell row0 yCol));
      reflexivity.
  - intros Hty. unfold plotParams. rewrite Hty, Hdf.
    cbn [js_eq_str truthy String.eqb Ascii.eqb Bool.eqb orb negb].
    fold columns nameCol valCol.
    destruct (truthy nameCol), (truthy valCol), (truthy (cell row0 nameCol)),
      (truthy (cell row0 valCol)); reflexivity.
  - intros isInit Hp Herr Ht Hi Hn.
    unfold graphContent. rewrite Hp, Herr, Ht, Hi, Hn. destruct isInit; reflexivity.
Qed.









(* ------------------------------------------------------------------ *)
(** ** The claims on concrete inputs *)

(** C1: a bulk payload listing the same query twice puts two entries
    with one triple in the result list. *)
Lemma bulk_duplicates_counterexample :
  NoDupTriples (queryResults initial_state) /\
  ~ NoDupTriples (queryResults
      (run_op (OpEvent (ws_bulk "final_insight" [sample_executed; sample_executed]))
              initial_state)).
Proof.
  split; [constructor|].
  vm_compute. intro H. inversion H as [|? ? Hn _]. apply Hn. left. reflexivity.
Qed.

Lemma result_triples_dedup_witness :
  NoDupTriples (queryResults initial_state) /\
  count_triple ("o", "q", Some "google")
    (queryResults (run_ops (map OpEvent [ws_query_result None; ws_query_result (Some [sample_row])])
                   initial_state)) = 1.
Proof.
  split; [constructor|].
  apply (proj2 result_triples_dedup); [constructor | discriminate |].
  repeat constructor.
Defined.

(** C2: an entry whose [data] is an empty array is not skipped. *)
Lemma bulk_empty_data_counterexample :
  queryResults (handle_event
    (ws_bulk "final_insight" [mkEQ (Some "google") (Some "o") (Some "q") (Some [])])
    initial_state) = [mkQR "o" "q" [] None (Some "google")].
Proof. vm_compute. reflexivity. Qed.

Lemma executed_queries_replace_witness :
  let e := ws_bulk "final_recommendation" [sample_executed; mkEQ None None None None] in
  (ws_type e = "final_insight" \/ ws_type e = "final_recommendation") /\
  ws_executed_queries e = Some [sample_executed; mkEQ None None None None] /\
  queryResults (handle_event e milestone_state)
    = bulk_results [sample_executed; mkEQ None None None None].
Proof.
  intro e. split; [right; reflexivity|]. split; [reflexivity|].
  apply (executed_queries_replace e milestone_state); [right|]; reflexivity.
Defined.

(** C3: a blank text sent while a turn is in progress leaves the
    processing flag set and adds no entry. *)
Lemma blank_send_counterexample :
  let st1 := fst (sendMessage "hi" ready_state) in
  sendMessage "   " st1 = (st1, None) /\ isProcessing st1 = true.
Proof. vm_compute. split; reflexivity. Qed.

Lemma sendMessage_guards_witness :
  is_open (readyState initial_state) = false /\
  snd (sendMessage "hi" initial_state) = None /\
  is_open (readyState ready_state) = true /\ str_truthy (userId ready_state) = true /\
  trim (bytes [194; 160; 32; 227; 128; 128]) = "" /\
  sendMessage (bytes [194; 160; 32; 227; 128; 128]) ready_state = (ready_state, None).
Proof.
  split; [reflexivity|]. split.
  - pose proof (proj1 (sendMessage_guards "hi" initial_state) (or_introl eq_refl)) as H.
    destruct (sendMessage "hi" initial_state) as [st' req]. apply H.
  - split; [reflexivity|]. split; [reflexivity|]. split; [vm_compute; reflexivity|].
    apply (proj2 (sendMessage_guards (bytes [194; 160; 32; 227; 128; 128]) ready_state));
      vm_compute; reflexivity.
Defined.

Lemma final_events_without_bulk_witness :
  ws_executed_queries (ws_empty "final_insight") = None /\
  queryResults (handle_event (ws_empty "final_insight") initial_state)
    = queryResults initial_state /\
  isProcessing (handle_event (ws_empty "final_insight") initial_state) = false.
Proof.
  split; [reflexivity|].
  apply (proj1 (final_events_without_bulk (ws_empty "final_insight") initial_state eq_refl)).
  reflexivity.
Defined.



Lemma reasoning_summary_frame_witness :
  ws_type ws_reasoning_summary = "reasoning_summary" /\
  List.length (messages (handle_event ws_reasoning_summary milestone_state))
    = List.length (messages milestone_state).
Proof.
  split; [reflexivity|].
  destruct (reasoning_summary_frame ws_reasoning_summary milestone_state eq_refl)
    as (_ & H & _). exact H.
Defined.

Lemma nested_flat_same_chart_witness :
  let pre := [("type", JStr "bar"); ("title", JStr "Revenue")] in
  let post := [("objective", JStr "o")] in
  no_key ["columns"; "x_axis"; "y_axis"; "names"; "values"; "color_column"] pre = true /\
  no_key ["columns"; "x_axis"; "y_axis"; "names"; "values"; "color_column"] post = true /\
  normalize (pre ++ ("columns", nested_xy) :: post)%list
    = normalize (pre ++ ("x_axis", JStr "date") :: ("y_axis", JStr "revenue") :: post)%list.
Proof.
  intros pre post. split; [reflexivity|]. split; [reflexivity|].
  apply (nested_flat_same_chart pre post); reflexivity.
Defined.

(** C8: a flat [x_axis] that is present but not a string is dropped, and
    so are the nested [names], [values] and [color] roles. *)
Lemma dropped_roles_counterexample :
  normalize [("type", JStr "bar"); ("x_axis", JNum 5); ("y_axis", JStr "revenue")]
    = NOut [("type", JStr "bar"); ("title", JUndef); ("description", JUndef);
            ("columns", JObj [("y", JStr "revenue")]); ("objective", JStr "Unknown Objective")] /\
  normalize [("type", JStr "pie");
             ("columns", JObj [("names", JStr "region"); ("values", JStr "sales")])]
    = NOut [("type", JStr "pie"); ("title", JUndef); ("description", JUndef);
            ("columns", JObj []); ("objective", JStr "Unknown Objective")].
Proof. split; vm_compute; reflexivity. Qed.

Lemma normalize_column_roles_witness :
  let raw := [("type", JStr "bar"); ("columns", JObj [("x", JStr "date")]);
              ("y_axis", JStr "revenue"); ("color_column", JStr "region")] in
  nodup_keys raw = true /\ normalize raw <> NThrow.
Proof.
  intro raw. split; [reflexivity|].
  apply (proj1 (normalize_column_roles raw eq_refl)).
Defined.

(** C9: both column names are keys of the first row, yet no plot comes
    out because the revenue cell is 0; the card shows "unavailable". *)
Lemma falsy_cell_counterexample :
  has_key "date" [("date", JStr "2024-01"); ("revenue", JNum 0)] = true /\
  has_key "revenue" [("date", JStr "2024-01"); ("revenue", JNum 0)] = true /\
  plotParams (Some bar_suggestion) (Some zero_revenue_result) = None /\
  graphContent (Some zero_revenue_result) (Some bar_suggestion) false false = CUnavailable.
Proof. vm_compute. repeat split. Qed.

Lemma plotParams_requirements_witness :
  dataframe zero_revenue_result = [[("date", JStr "2024-01"); ("revenue", JNum 0)]] /\
  is_some (plotParams (Some bar_suggestion) (Some zero_revenue_result)) = false.
Proof.
  split; [reflexivity|].
  rewrite (proj1 (plotParams_requirements bar_suggestion zero_revenue_result
                    [("date", JStr "2024-01"); ("revenue", JNum 0)] [] eq_refl)
                 "bar" (or_introl eq_refl) eq_refl).
  vm_compute. reflexivity.
Defined.

(** C10: a second identical row-less [query_result] event appends
    nothing. *)
Lemma repeated_query_result_counterexample :
  let st1 := handle_event (ws_query_result None) initial_state in
  ws_data (ws_query_result None) = None /\
  queryResults (handle_event (ws_query_result None) st1) = queryResults st1.
Proof. vm_compute. split; reflexivity. Qed.

Lemma query_result_without_rows_witness :
  ws_type (ws_query_result None) = "query_result" /\
  ws_data (ws_query_result None) = None /\
  queryResults (handle_event (ws_query_result None) initial_state)
    = [mkQR "o" "q" [] None (Some "google")].
Proof.
  split; [reflexivity|]. split; [reflexivity|].
  rewrite (proj1 (query_result_without_rows (ws_query_result None) initial_state
                    eq_refl (or_introl eq_refl))).
  reflexivity.
Defined.

(* ------------------------------------------------------------------ *)
(** ** Further properties: pagination and data source of the explorer *)
Lemma js_index_some {A} (l : list A) (i : Z) :
  (0 <= i)%Z -> (i < Z.of_nat (List.length l))%Z -> exists x, js_index l i = Some x.
Proof.
  intros H0 H1. unfold js_index. destruct (Z.ltb_spec i 0); [lia|].
  destruct (nth_error l (Z.to_nat i)) eqn:E; [eauto|].
  apply nth_error_None in E. lia.
Qed.

(** The clamping effect of [DataExplorer] leaves a non-negative index;
    [0] when the list is empty, and otherwise an index below its length
    at which an element is defined; running the effect again changes
    nothing. *)
Theorem clampIndex_range {A} (l : list A) (idx : Z) :
  (0 <= idx)%Z ->
  let i := clampIndex (Z.of_nat (List.length l)) idx in
  (0 <= i)%Z /\ (l = [] -> i = 0%Z) /\
  (l <> [] -> (i < Z.of_nat (List.length l))%Z /\ exists x, js_index l i = Some x) /\
  clampIndex (Z.of_nat (List.length l)) i = i.
Proof.
  intros H i. subst i. unfold clampIndex.
  destruct l as [|a l'].
  - simpl. split; [lia|]. split; [auto|]. split; [intros C; contradiction C; reflexivity|reflexivity].
  - set (n := Z.of_nat (List.length (a :: l'))).
    assert (Hn : (0 < n)%Z) by (unfold n; simpl; lia).
    destruct (Z.eqb_spec n 0); [lia|].
    destruct (Z.leb_spec n idx).
    + rewrite Z.max_r by lia.
      destruct (Z.leb_spec n (n - 1)); [lia|].
      repeat split; try lia; try discriminate.
      apply js_index_some; unfold n in *; lia.
    + destruct (Z.leb_spec n idx); [lia|].
      repeat split; try lia; try discriminate.
      apply js_index_some; unfold n in *; lia.
Qed.

(** From an index in range, [handleNext] and [handlePrev] stay in range;
    they undo each other away from the ends, and they stay put at the
    last and the first index. *)
Theorem pagination_steps (total i : Z) :
  (0 <= i < total)%Z ->
  (0 <= handleNext total i < total)%Z /\ (0 <= handlePrev i < total)%Z /\
  (i + 1 < total -> handlePrev (handleNext total i) = i)%Z /\
  (0 < i -> handleNext total (handlePrev i) = i)%Z /\
  handleNext total (total - 1) = (total - 1)%Z /\ handlePrev 0 = 0%Z.
Proof.
  intros H. unfold handleNext, handlePrev.
  destruct (Z.ltb_spec 0 total); [|lia].
  repeat split; lia.
Qed.

Lemma find_js_in {A} (p : A -> option bool) (l : list A) (x : A) :
  find_js p l = Some (Some x) -> In x l.
Proof.
  induction l as [|a l IH]; simpl; [discriminate|].
  destruct (p a) as [[|]|]; intro H; try discriminate.
  - inversion H; auto.
  - right; auto.
Qed.

Lemma first_result_spec (qrs : list QueryResult) :
  (forall qr, first_result qrs = Some qr -> In qr qrs) /\
  (first_result qrs = None <-> qrs = []).
Proof.
  destruct qrs as [|q l]; simpl; split; try split; intros; try discriminate; auto.
  inversion H; auto.
Qed.

(** The data source chosen for a graph, when the choice does not throw,
    is one of the query results; for a present suggestion it is
    [undefined] exactly when there are no query results. *)
Theorem dataSource_in_results (cur : option obj) (qrs : list QueryResult) r :
  dataSourceForCurrentGraph cur qrs = Some r ->
  (forall qr, r = Some qr -> In qr qrs) /\
  (cur <> None -> (r = None <-> qrs = [])).
Proof.
  pose proof (first_result_spec qrs) as [Hf1 Hf2].
  destruct cur as [g|]; simpl.
  2:{ intro H; inversion H; subst; split; [discriminate|]. intro C; contradiction C; reflexivity. }
  destruct (negb (truthy (objectiveToMatch g))).
  - destruct (find_js _ qrs) as [[qr|]|] eqn:E; intro H; inversion H; subst; clear H.
    + apply find_js_in in E. split; [intros ? Hq; inversion Hq; subst; auto|].
      intros _; split; [discriminate|intro; subst; inversion E].
    + split; [auto|intros _; exact Hf2].
  - destruct (find _ qrs) as [qr|] eqn:E; intro H; inversion H; subst; clear H.
    + apply find_some in E as [E _]. split; [intros ? Hq; inversion Hq; subst; auto|].
      intros _; split; [discriminate|intro; subst; inversion E].
    + split; [auto|intros _; exact Hf2].
Qed.

Lemma get_objective_mapSuggestion bs :
  get "objective" (mapSuggestion bs) =
  if truthy (get "objective" bs) then get "objective" bs else JStr "Unknown Objective".
Proof.
  unfold mapSuggestion.
  rewrite (get_omit "objective" ["columns"] bs) by reflexivity.
  destruct (truthy (get_opt "y" _)), (truthy (get_opt "x" _));
    rewrite ?get_set; cbv [String.eqb Ascii.eqb Bool.eqb]; reflexivity.
Qed.

(** For a suggestion produced by the hook's mapping and not of type image,
    the data source is the first query result with a non-empty objective
    containing the suggestion's objective (["Unknown Objective"] when the
    backend gave none), else the first query result; it never throws. *)
Theorem dataSource_mapped (bs : obj) (qrs : list QueryResult) :
  js_eq_str (get "type" (mapSuggestion bs)) "image" = false ->
  let objective_text :=
    if truthy (get "objective" bs) then js_to_string (get "objective" bs)
    else "Unknown Objective" in
  dataSourceForCurrentGraph (Some (mapSuggestion bs)) qrs =
  Some (match find (fun qr => negb (String.eqb (objective qr) "")
                              && includes (objective qr) objective_text) qrs with
        | Some qr => Some qr
        | None => first_result qrs
        end).
Proof.
  intros Hty ot. unfold dataSourceForCurrentGraph, objectiveToMatch.
  rewrite Hty, get_objective_mapSuggestion. cbn [andb negb].
  subst ot. destruct (truthy (get "objective" bs)) eqn:Ht; cbn [negb truthy];
    rewrite ?Ht; change ("Unknown Objective" =? "") with false;
    cbn [negb js_to_string]; destruct (find _ qrs); reflexivity.
Qed.

(* ------------------------------------------------------------------ *)
(** ** Further properties: the stored graph suggestions *)

Lemma graphSuggestions_warns ws st :
  graphSuggestions (fold_left (fun s w => warn w s) ws st) = graphSuggestions st.
Proof. revert st; induction ws as [|w ws IH]; intro st; simpl; [reflexivity|].
  rewrite IH; reflexivity. Qed.

Lemma graphSuggestions_handleExecutedQueries eqs st :
  graphSuggestions (snd (handleExecutedQueries eqs st)) = graphSuggestions st.
Proof.
  destruct eqs as [l|]; [|reflexivity]. unfold handleExecutedQueries.
  destruct (build_executed 0 l) as [rs ws]. simpl. apply graphSuggestions_warns.
Qed.

Lemma graphSuggestions_on_status e st :
  graphSuggestions (on_status e st) = graphSuggestions st.
Proof.
  unfold on_status.
  destruct (match ws_step e with Some s => endsWith s "workflow_end" | None => false end);
    [reflexivity|].
  destruct (opt_str_eqb (ws_status e) (Some "completed")); [|reflexivity].
  match goal with |- context [let '(_, _) := ?x in _] => destruct x end.
  destruct (_ || _ || _); reflexivity.
Qed.

Lemma graphSuggestions_final_insight e st :
  graphSuggestions (on_final_insight e st) = handleGraphSuggestions (ws_graph_suggestions e).
Proof.
  unfold on_final_insight.
  match goal with |- context [let '(_, _) := ?x in _] => destruct x end.
  destruct (ws_graph_suggestions e) as [[|g l]|]; reflexivity.
Qed.

Lemma graphSuggestions_final_recommendation e st :
  graphSuggestions (on_final_recommendation e st) = handleGraphSuggestions (ws_graph_suggestions e).
Proof.
  unfold on_final_recommendation.
  match goal with |- context [let '(_, _) := ?x in _] => destruct x as [[|] ?] end;
    reflexivity.
Qed.

Lemma graphSuggestions_handle_event e st :
  graphSuggestions (handle_event e st) = graphSuggestions st \/
  graphSuggestions (handle_event e st) = handleGraphSuggestions (ws_graph_suggestions e).
Proof.
  unfold handle_event.
  destruct (String.eqb (ws_type e) "connection_established"); [destruct (str_truthy _); auto|].
  destruct (String.eqb (ws_type e) "status"); [left; apply graphSuggestions_on_status|].
  destruct (String.eqb (ws_type e) "classifier_info"); [destruct (nonblank _); auto|].
  destruct (String.eqb (ws_type e) "classifier_answer"); [destruct (nonblank _); auto|].
  destruct (String.eqb (ws_type e) "reasoning_summary").
  { left; unfold on_reasoning_summary; destruct (_ && _); reflexivity. }
  destruct (String.eqb (ws_type e) "final_insight"); [right; apply graphSuggestions_final_insight|].
  destruct (String.eqb (ws_type e) "final_recommendation");
    [right; apply graphSuggestions_final_recommendation|].
  destruct (String.eqb (ws_type e) "query_result"); [auto|].
  destruct (String.eqb (ws_type e) "routing_decision"); [auto|].
  destruct (String.eqb (ws_type e) "error"); auto.
Qed.

Lemma graphSuggestions_sendMessage m st :
  graphSuggestions (fst (sendMessage m st)) = graphSuggestions st \/
  graphSuggestions (fst (sendMessage m st)) = [].
Proof.
  unfold sendMessage.
  destruct (negb (is_open (readyState st))); [left; reflexivity|].
  destruct (negb (str_truthy (userId st))); [left; reflexivity|].
  destruct (String.eqb (trim m) ""); [left; reflexivity|].
  destruct (parseUserMessageWithContext m) as [u [c|]]; right; reflexivity.
Qed.

Lemma graphSuggestions_run_op op st :
  graphSuggestions (run_op op st) = graphSuggestions st \/
  graphSuggestions (run_op op st) = [] \/
  exists bss, graphSuggestions (run_op op st) = handleGraphSuggestions bss.
Proof.
  destruct op as [e|m|r| | |]; simpl; auto.
  - destruct (graphSuggestions_handle_event e st) as [H|H]; eauto.
  - destruct (graphSuggestions_sendMessage m st) as [H|H]; auto.
  - left. destruct r as [t|resp tool|msg]; simpl; auto.
    destruct (str_truthy resp), tool; reflexivity.
Qed.

Lemma handleGraphSuggestions_mapped bss :
  Forall (fun g => exists bs, g = mapSuggestion bs) (handleGraphSuggestions bss).
Proof.
  destruct bss as [[|b l]|]; simpl; auto.
  constructor; [eauto|]. apply Forall_forall. intros g Hg. apply in_map_iff in Hg.
  destruct Hg as [bs [<- _]]; eauto.
Qed.

Lemma reachable_suggestions_mapped ops st :
  Forall (fun g => exists bs, g = mapSuggestion bs) (graphSuggestions st) ->
  Forall (fun g => exists bs, g = mapSuggestion bs) (graphSuggestions (run_ops ops st)).
Proof.
  revert st; induction ops as [|op ops IH]; intros st H; [exact H|].
  rewrite run_ops_cons. apply IH.
  destruct (graphSuggestions_run_op op st) as [E|[E|[bss E]]]; rewrite E; auto.
  apply handleGraphSuggestions_mapped.
Qed.

(** In every state reached from the initial state, each stored graph
    suggestion has no [columns] key and a truthy [objective]. *)
Theorem stored_suggestions_mapped (ops : list Op) :
  Forall (fun g => has_key "columns" g = false /\ truthy (get "objective" g) = true)
    (graphSuggestions (run_ops ops initial_state)).
Proof.
  assert (H := reachable_suggestions_mapped ops initial_state (Forall_nil _)).
  eapply Forall_impl; [|exact H]. intros g [bs ->]. split.
  - rewrite has_key_mapSuggestion by discriminate. reflexivity.
  - unfold mapSuggestion.
    destruct (truthy (get_opt "y" _)), (truthy (get_opt "x" _));
      rewrite ?get_set; cbv [String.eqb Ascii.eqb Bool.eqb];
      destruct (truthy (get "objective" (omit ["columns"] bs))) eqn:Ht; auto.
Qed.

(* ------------------------------------------------------------------ *)
(** ** Further properties: the graph card *)

Lemma js_index_in {A} (l : list A) (i : Z) (x : A) : js_index l i = Some x -> In x l.
Proof.
  unfold js_index. destruct (Z.ltb i 0); [discriminate|]. apply nth_error_In.
Qed.

Lemma currentRaw_in gs idx g : currentRawGraphSuggestion gs idx = Some g -> In g gs.
Proof.
  unfold currentRawGraphSuggestion. destruct (Z.ltb 0 _); [apply js_index_in|discriminate].
Qed.

Lemma objectiveToMatch_mapped bs :
  js_eq_str (get "type" (mapSuggestion bs)) "image" = false ->
  objectiveToMatch (mapSuggestion bs) = get "objective" (mapSuggestion bs) /\
  truthy (get "objective" (mapSuggestion bs)) = true.
Proof.
  intros Hty. unfold objectiveToMatch. rewrite Hty. cbn [andb negb].
  assert (Ho : truthy (get "objective" (mapSuggestion bs)) = true).
  { unfold mapSuggestion.
    destruct (truthy (get_opt "y" _)), (truthy (get_opt "x" _));
      rewrite ?get_set; cbv [String.eqb Ascii.eqb Bool.eqb];
      destruct (truthy (get "objective" (omit ["columns"] bs))) eqn:Ht; auto. }
  rewrite Ho. auto.
Qed.

Lemma dataSource_mapped_defined bs qrs :
  js_eq_str (get "type" (mapSuggestion bs)) "image" = false ->
  dataSourceForCurrentGraph (Some (mapSuggestion bs)) qrs <> None.
Proof.
  intros Hty. destruct (objectiveToMatch_mapped bs Hty) as [E Ht].
  unfold dataSourceForCurrentGraph. rewrite E, Ht. cbn [negb].
  destruct (find _ qrs); discriminate.
Qed.

Lemma finalGraph_mapped_defined bs :
  finalGraphSuggestionForViewer (mapSuggestion bs) <> NThrow.
Proof.
  apply finalGraph_roles. rewrite has_key_mapSuggestion by discriminate. reflexivity.
Qed.

Lemma assign_if_keeps b k v q p' k' :
  k' <> "columns" -> assign_if b k v q = Some p' ->
  exists p, q = Some p /\ get k' p' = get k' p.
Proof.
  intros Hk. apply String.eqb_neq in Hk. destruct b; cbn [assign_if].
  - unfold assign_column. destruct q as [p|]; [|discriminate].
    destruct (get "columns" p); try discriminate;
      intro E; injection E as <-; exists p; rewrite get_set, Hk; auto.
  - intros ->. eexists; eauto.
Qed.

(** Outside the image path the viewer's suggestion has a string or
    [undefined] title, so the [CardTitle] renders. *)
Lemma finalGraph_title_ok (o p : obj) :
  js_eq_str (get "type" o) "image" = false ->
  finalGraphSuggestionForViewer o = NOut p -> cardTitle_ok (Some p) = true.
Proof.
  intros Hty. unfold finalGraphSuggestionForViewer. rewrite Hty.
  set (rest := omit _ o).
  set (p0 := spread _ rest).
  assert (L0 : get "title" p0 = if is_string (get "title" o) then get "title" o else JUndef).
  { unfold p0. rewrite get_spread_notin; [reflexivity|].
    unfold rest. rewrite has_key_omit. reflexivity. }
  assert (Hok : forall q, get "title" q = get "title" p0 -> cardTitle_ok (Some q) = true).
  { intros q Hq. cbn [cardTitle_ok]. rewrite Hq, L0.
    destruct (get "title" o); cbn [is_string react_child_ok]; rewrite ?orb_true_r; reflexivity. }
  clearbody p0.
  generalize (get "x_axis" o) as vx; generalize (get "y_axis" o) as vy;
  generalize (get "names" o) as vn; generalize (get "values" o) as vv;
  generalize (get "color_column" o) as vc. intros vc vv vn vy vx.
  set (q1 := assign_if _ "x" _ (Some p0)).
  set (q2 := assign_if _ "y" _ q1).
  set (q3 := assign_if _ "names" _ q2).
  set (q4 := assign_if _ "values" _ q3).
  destruct (assign_if _ "color" _ q4) as [p5|] eqn:E5; [|discriminate].
  assert (T5 : get "title" p5 = get "title" p0).
  { destruct (assign_if_keeps _ _ _ _ _ "title" ltac:(discriminate) E5) as (p4 & E4 & ->).
    destruct (assign_if_keeps _ _ _ _ _ "title" ltac:(discriminate) E4) as (p3 & E3 & ->).
    destruct (assign_if_keeps _ _ _ _ _ "title" ltac:(discriminate) E3) as (p2 & E2 & ->).
    destruct (assign_if_keeps _ _ _ _ _ "title" ltac:(discriminate) E2) as (p1 & E1 & ->).
    destruct (assign_if_keeps _ _ _ _ _ "title" ltac:(discriminate) E1) as (p0' & E0 & ->).
    injection E0 as ->. reflexivity. }
  destruct (js_eq_str (get "type" p5) "image" || js_eq_str (get "type" p5) "none");
    [destruct (js_eq_str (get "type" p5) "none")|];
    intro E; try discriminate; injection E as <-; apply Hok; [|exact T5].
  exact T5.
Qed.

(** In every state the hook can reach from its initial state, the graph
    card of [DataExplorer] renders without throwing as long as the
    current graph suggestion, if any, is not of type image. *)
Theorem render_reachable_non_image (ops : list Op) (idx : Z) :
  let st := run_ops ops initial_state in
  (forall g, currentRawGraphSuggestion (graphSuggestions st) idx = Some g ->
     js_eq_str (get "type" g) "image" = false) ->
  renderGraph (queryResults st) (graphSuggestions st) (isProcessing st) idx <> None.
Proof.
  intros st Himg. unfold renderGraph.
  destruct (_ && Z.eqb _ 0); [discriminate|].
  destruct (currentRawGraphSuggestion (graphSuggestions st) idx) as [g|] eqn:Ec.
  2:{ simpl. discriminate. }
  pose proof (Himg g eq_refl) as Hty.
  assert (Hm := reachable_suggestions_mapped ops initial_state (Forall_nil _)).
  fold st in Hm. rewrite Forall_forall in Hm.
  destruct (Hm g (currentRaw_in _ _ _ Ec)) as [bs ->].
  destruct (dataSourceForCurrentGraph _ _) eqn:Ed;
    [|exfalso; exact (dataSource_mapped_defined bs _ Hty Ed)].
  destruct (finalGraphSuggestionForViewer (mapSuggestion bs)) as [|p|] eqn:Ef.
  - discriminate.
  - rewrite (finalGraph_title_ok _ p Hty Ef). discriminate.
  - exfalso; exact (finalGraph_mapped_defined bs Ef).
Qed.

(** When the current suggestion is of type image and the graph card
    renders (the image path passes the raw title to the card's header, so
    a plain-object title makes it throw), the card shows the image, except
    that it shows the error box when the matched query result carries an
    error. *)
Theorem render_image_suggestion (qrs : list QueryResult) (gs : list obj)
    (isProcessing : bool) (idx : Z) (g : obj) (card : GraphCard) :
  currentRawGraphSuggestion gs idx = Some g ->
  js_eq_str (get "type" g) "image" = true ->
  renderGraph qrs gs isProcessing idx = Some card ->
  exists r, dataSourceForCurrentGraph (Some g) qrs = Some r /\
    card = Viewer (if match r with Some q => str_truthy (error q) | None => false end
                   then CErrorBox else CImage).
Proof.
  intros Ec Hty Hr. unfold renderGraph in Hr.
  assert (Hne : gs <> []) by (intro; subst; discriminate).
  assert (Hz : Z.eqb (Z.of_nat (List.length gs)) 0 = false).
  { destruct gs; [contradiction|]. simpl. lia. }
  rewrite Ec, Hz, andb_false_r in Hr.
  destruct (dataSourceForCurrentGraph (Some g) qrs) as [r|] eqn:Ed; [|discriminate].
  exists r; split; [reflexivity|].
  unfold finalGraphSuggestionForViewer in Hr. rewrite Hty in Hr.
  cbv beta iota zeta in Hr.
  destruct (cardTitle_ok _); [|discriminate Hr].
  inversion Hr; subst; clear Hr.
  unfold graphContent. cbn [is_some negb andb].
  rewrite !andb_false_r. cbn [get String.eqb js_eq_str].
  change (String.eqb "image" "image") with true.
  destruct isProcessing; cbn [andb negb]; [|];
  destruct (match r with Some q => str_truthy (error q) | None => false end); reflexivity.
Qed.

(** With no graph suggestion, the graph card shows "No graph to display"
    when nothing is processing and there are no query results, and the
    viewer's placeholder otherwise (never its "no data" message). *)
Theorem render_without_suggestions (qrs : list QueryResult) (isProcessing : bool) (idx : Z) :
  renderGraph qrs [] isProcessing idx =
  Some (if negb isProcessing && (match qrs with [] => true | _ => false end)
        then NoGraphCard else Viewer CPlaceholder).
Proof.
  unfold renderGraph, isInitialStateDE. cbn.
  destruct qrs; destruct isProcessing; reflexivity.
Qed.


(* ------------------------------------------------------------------ *)
(** ** Further properties: transcript, turn and channel of the hook *)

Lemma messages_warns ws st :
  messages (fold_left (fun s w => warn w s) ws st) = messages st.
Proof. revert st; induction ws as [|w ws IH]; intro st; simpl; [reflexivity|].
  rewrite IH; reflexivity. Qed.

Lemma messages_handleExecutedQueries eqs st :
  messages (snd (handleExecutedQueries eqs st)) = messages st.
Proof.
  destruct eqs as [l|]; [|reflexivity]. unfold handleExecutedQueries.
  destruct (build_executed 0 l) as [rs ws]. simpl. apply messages_warns.
Qed.

Lemma strip_update_nth i r l :
  map entry_without_reasoning (update_nth i (with_reasoning r) l) =
  map entry_without_reasoning l.
Proof.
  revert i; induction l as [|m l IH]; intros [|i]; simpl; try rewrite IH; reflexivity.
Qed.


Lemma extends_app st st' new :
  messages st' = (messages st ++ new)%list -> transcript_extends st st'.
Proof. intro H. exists (map entry_without_reasoning new). rewrite H, map_app. reflexivity. Qed.

Lemma extends_refl st st' : messages st' = messages st -> transcript_extends st st'.
Proof. intro H. apply (extends_app st st' []). rewrite H, app_nil_r. reflexivity. Qed.

Lemma extends_trans a b c :
  transcript_extends a b -> transcript_extends b c -> transcript_extends a c.
Proof.
  intros [n1 H1] [n2 H2]. exists (n1 ++ n2)%list. rewrite H2, H1, app_assoc. reflexivity.
Qed.

Lemma messages_on_status e st :
  exists new, messages (on_status e st) = (messages st ++ new)%list.
Proof.
  unfold on_status.
  destruct (match ws_step e with Some s => endsWith s "workflow_end" | None => false end).
  { exists []; rewrite app_nil_r; reflexivity. }
  destruct (opt_str_eqb (ws_status e) (Some "completed")).
  2:{ exists []; rewrite app_nil_r; reflexivity. }
  match goal with |- context [let '(_, _) := ?x in _] => destruct x end.
  destruct (_ || _ || _); [eexists; reflexivity|].
  exists []; rewrite app_nil_r; reflexivity.
Qed.

Lemma extends_handle_event e st : transcript_extends st (handle_event e st).
Proof.
  unfold handle_event.
  destruct (String.eqb (ws_type e) "connection_established");
    [destruct (str_truthy _); apply extends_refl; reflexivity|].
  destruct (String.eqb (ws_type e) "status").
  { destruct (messages_on_status e st) as [n H]. exact (extends_app _ _ _ H). }
  destruct (String.eqb (ws_type e) "classifier_info");
    [destruct (nonblank _); [eapply extends_app; reflexivity|apply extends_refl; reflexivity]|].
  destruct (String.eqb (ws_type e) "classifier_answer");
    [destruct (nonblank _); [eapply extends_app; reflexivity|apply extends_refl; reflexivity]|].
  destruct (String.eqb (ws_type e) "reasoning_summary").
  { unfold on_reasoning_summary. destruct (_ && _); [|apply extends_refl; reflexivity].
    exists []. rewrite app_nil_r. simpl.
    destruct (findLastIndex _ _); [apply strip_update_nth|reflexivity]. }
  destruct (String.eqb (ws_type e) "final_insight").
  { unfold on_final_insight.
    match goal with |- context [let '(_, _) := ?x in _] => destruct x as [b st1] eqn:E end.
    apply (extends_app _ _ [mkMsg (next_id st) RAssistant
      (str_or (ws_insight e) "No final insight received.")
      (final_reasoning (ws_reasoning e)) None None (ws_step e)]).
    simpl. change st1 with (snd (b, st1)). rewrite <- E, messages_handleExecutedQueries.
    reflexivity. }
  destruct (String.eqb (ws_type e) "final_recommendation").
  { unfold on_final_recommendation.
    match goal with |- context [let '(_, _) := ?x in _] => destruct x as [b st1] eqn:E end.
    eapply extends_app. simpl.
    assert (H : messages st1 = messages (snd (b, st1))) by reflexivity.
    rewrite <- E, messages_handleExecutedQueries in H.
    destruct b; simpl; rewrite H; reflexivity. }
  destruct (String.eqb (ws_type e) "query_result"); [apply extends_refl; reflexivity|].
  destruct (String.eqb (ws_type e) "routing_decision"); [apply extends_refl; reflexivity|].
  destruct (String.eqb (ws_type e) "error"); [eapply extends_app; reflexivity|].
  apply extends_refl; reflexivity.
Qed.

(** No sequence of operations removes, reorders or rewrites a transcript
    entry: apart from [reasoning] fields, the old transcript is a prefix
    of the new one. *)
Theorem transcript_append_only (ops : list Op) (st : ChatState) :
  exists new, map entry_without_reasoning (messages (run_ops ops st)) =
              (map entry_without_reasoning (messages st) ++ new)%list.
Proof.
  change (transcript_extends st (run_ops ops st)).
  revert st; induction ops as [|op ops IH]; intro st.
  - apply extends_refl; reflexivity.
  - rewrite run_ops_cons. eapply extends_trans; [|apply IH].
    destruct op as [e|m|r| | |]; simpl; try (apply extends_refl; reflexivity).
    + apply extends_handle_event.
    + unfold sendMessage.
      destruct (negb (is_open (readyState st))); [eapply extends_app; reflexivity|].
      destruct (negb (str_truthy (userId st))); [eapply extends_app; reflexivity|].
      destruct (String.eqb (trim m) ""); [apply extends_refl; reflexivity|].
      destruct (parseUserMessageWithContext m) as [u [c|]]; eapply extends_app; reflexivity.
    + destruct r as [t|resp tool|msg]; simpl; try (eapply extends_app; reflexivity).
      destruct (str_truthy resp), tool; simpl;
        first [eapply extends_app; reflexivity | apply extends_refl; reflexivity].
Qed.

Lemma isProcessing_handleExecutedQueries eqs st :
  isProcessing (snd (handleExecutedQueries eqs st)) = isProcessing st.
Proof.
  destruct eqs as [l|]; [|reflexivity]. unfold handleExecutedQueries.
  destruct (build_executed 0 l) as [rs ws]. simpl. apply isProcessing_warns.
Qed.

Lemma isProcessing_on_status e st :
  isProcessing (on_status e st) = isProcessing st \/ isProcessing (on_status e st) = false.
Proof.
  unfold on_status.
  destruct (match ws_step e with Some s => endsWith s "workflow_end" | None => false end);
    [right; reflexivity|left].
  destruct (opt_str_eqb (ws_status e) (Some "completed")); [|reflexivity].
  match goal with |- context [let '(_, _) := ?x in _] => destruct x end.
  destruct (_ || _ || _); reflexivity.
Qed.

(** The processing flag is only ever turned on by a call of
    [sendMessage] that issues a request: no event of the channel, no
    response and no channel callback sets it. *)
Theorem processing_only_set_by_send (op : Op) (st : ChatState) :
  isProcessing (run_op op st) = true ->
  isProcessing st = true \/
  exists m, op = OpSend m /\ snd (sendMessage m st) <> None.
Proof.
  intro H. destruct op as [e|m|r| | |]; simpl in H; try discriminate.
  - left. revert H. unfold handle_event.
    destruct (String.eqb (ws_type e) "connection_established"); [destruct (str_truthy _); auto|].
    destruct (String.eqb (ws_type e) "status");
      [destruct (isProcessing_on_status e st) as [E|E]; rewrite E; [auto|discriminate]|].
    destruct (String.eqb (ws_type e) "classifier_info"); [destruct (nonblank _); auto|].
    destruct (String.eqb (ws_type e) "classifier_answer"); [destruct (nonblank _); discriminate|].
    destruct (String.eqb (ws_type e) "reasoning_summary").
    { unfold on_reasoning_summary; destruct (_ && _); auto. }
    destruct (String.eqb (ws_type e) "final_insight").
    { unfold on_final_insight. match goal with |- context [let '(_, _) := ?x in _] => destruct x end.
      discriminate. }
    destruct (String.eqb (ws_type e) "final_recommendation").
    { unfold on_final_recommendation.
      match goal with |- context [let '(_, _) := ?x in _] => destruct x as [[|] ?] end;
      discriminate. }
    destruct (String.eqb (ws_type e) "query_result"); [auto|].
    destruct (String.eqb (ws_type e) "routing_decision"); [auto|].
    destruct (String.eqb (ws_type e) "error"); [discriminate|auto].
  - destruct (snd (sendMessage m st)) eqn:Hs.
    { right. exists m. split; [reflexivity|rewrite Hs; discriminate]. }
    left. revert H Hs. unfold sendMessage.
    destruct (negb (is_open (readyState st))); [discriminate|].
    destruct (negb (str_truthy (userId st))); [discriminate|].
    destruct (String.eqb (trim m) ""); [auto|].
    destruct (parseUserMessageWithContext m) as [u [c|]]; simpl; discriminate.
  - left. revert H. destruct r as [t|resp tool|msg]; simpl; try discriminate.
    destruct (str_truthy resp), tool; simpl; auto; discriminate.
Qed.

(** The events [final_insight], [final_recommendation], [error] and
    [classifier_answer], and a [status] event whose step ends with
    [workflow_end], clear the processing flag and the status line. *)
Theorem terminal_events_end_turn (e : WebSocketMessage) (st : ChatState) :
  (In (ws_type e) ["final_insight"; "final_recommendation"; "error"; "classifier_answer"] \/
   (ws_type e = "status" /\
    exists s, ws_step e = Some s /\ endsWith s "workflow_end" = true)) ->
  isProcessing (handle_event e st) = false /\ currentStatus (handle_event e st) = None.
Proof.
  intros [Hin|[Hty [s [Hs He]]]].
  - unfold handle_event.
    simpl in Hin; destruct Hin as [H|[H|[H|[H|[]]]]]; rewrite <- H; cbn -[on_final_insight on_final_recommendation on_error].
    + unfold on_final_insight.
      match goal with |- context [let '(_, _) := ?x in _] => destruct x end. auto.
    + unfold on_final_recommendation.
      match goal with |- context [let '(_, _) := ?x in _] => destruct x as [[|] ?] end; auto.
    + auto.
    + destruct (nonblank _); auto.
  - unfold handle_event. rewrite Hty. cbn -[on_status].
    unfold on_status. rewrite Hs, He. auto.
Qed.

(** After [final_insight] or [final_recommendation], the stored graph
    suggestions are the hook's mapping of the event's suggestions, or
    none; the raw list stored first by [final_recommendation] does not
    survive. *)
Theorem final_events_mapped_suggestions (e : WebSocketMessage) (st : ChatState) :
  ws_type e = "final_insight" \/ ws_type e = "final_recommendation" ->
  graphSuggestions (handle_event e st) = handleGraphSuggestions (ws_graph_suggestions e).
Proof.
  intros [H|H]; unfold handle_event; rewrite H; cbn -[on_final_insight on_final_recommendation].
  - unfold on_final_insight.
    match goal with |- context [let '(_, _) := ?x in _] => destruct x end.
    destruct (ws_graph_suggestions e) as [[|g l]|]; reflexivity.
  - unfold on_final_recommendation.
    match goal with |- context [let '(_, _) := ?x in _] => destruct x as [[|] ?] end;
      reflexivity.
Qed.

Lemma same_triple_refl qr : same_triple qr qr = true.
Proof. apply same_triple_spec. reflexivity. Qed.

Lemma add_query_result_idem qr l :
  add_query_result qr (add_query_result qr l) = add_query_result qr l.
Proof.
  unfold add_query_result at 2.
  destruct (existsb (same_triple qr) l) eqn:E.
  - unfold add_query_result. rewrite E. reflexivity.
  - unfold add_query_result. rewrite existsb_app. cbn [existsb].
    rewrite same_triple_refl, orb_true_r, E. reflexivity.
Qed.

(** Processing the same [query_result] event twice leaves the same
    state as processing it once. *)
Theorem query_result_idempotent (e : WebSocketMessage) (st : ChatState) :
  ws_type e = "query_result" ->
  handle_event e (handle_event e st) = handle_event e st.
Proof.
  intros H. unfold handle_event. rewrite H. cbn.
  unfold setQueryResults. cbn. rewrite add_query_result_idem. reflexivity.
Qed.


(** A [status] event leaves results and suggestions alone. When its step
    ends with [workflow_end] it clears the status and the processing flag
    and adds no entry; otherwise it sets a status line, keeps the flag,
    and appends one milestone entry (with the event's step) exactly when
    the status is [completed] and the step mentions generate, execute or
    classification. *)
Theorem status_event_effect (e : WebSocketMessage) (st : ChatState) :
  ws_type e = "status" ->
  let st' := handle_event e st in
  let ends := match ws_step e with Some s => endsWith s "workflow_end" | None => false end in
  let milestone :=
    negb ends && opt_str_eqb (ws_status e) (Some "completed")
    && (opt_includes (ws_step e) "generate" || opt_includes (ws_step e) "execute"
        || opt_includes (ws_step e) "classification") in
  queryResults st' = queryResults st /\ graphSuggestions st' = graphSuggestions st /\
  isProcessing st' = (if ends then false else isProcessing st) /\
  (currentStatus st' = None <-> ends = true) /\
  (if milestone
   then exists c q, messages st' =
          (messages st ++ [mkMsg (next_id st) RMilestone c None None q (ws_step e)])%list
   else messages st' = messages st).
Proof.
  intros Hty st' ends milestone. subst st'.
  unfold handle_event. rewrite Hty. cbn -[on_status]. unfold on_status.
  fold ends. subst milestone.
  destruct ends; cbn [negb andb].
  { repeat split; auto. }
  destruct (opt_str_eqb (ws_status e) (Some "completed")); cbn [andb].
  2:{ repeat split; auto; discriminate. }
  match goal with |- context [let '(_, _) := ?x in _] => destruct x as [c q] end.
  destruct (_ || _ || _); cbn.
  - repeat split; auto; try discriminate. exists c, q. reflexivity.
  - repeat split; auto; discriminate.
Qed.

(** On an open channel with a session id, a non-blank text without both
    markers is appended verbatim (untrimmed) as one user entry and sent as
    is; results and suggestions are cleared, the status becomes
    "Thinking..." and processing starts. *)
Theorem sendMessage_plain (m : string) (st : ChatState) :
  is_open (readyState st) = true -> str_truthy (userId st) = true ->
  String.eqb (trim m) "" = false ->
  includes m displayContextStartMarker && includes m queryStartMarker = false ->
  let '(st', req) := sendMessage m st in
  messages st' = (messages st ++ [mkMsg (next_id st) RUser m None None None None])%list /\
  queryResults st' = [] /\ graphSuggestions st' = [] /\
  currentStatus st' = Some "Thinking..." /\ isProcessing st' = true /\
  userId st' = userId st /\ req = Some (mkReq m (interp (userId st))).
Proof.
  intros Ho Hu Ht Hm. unfold sendMessage. rewrite Ho, Hu, Ht. cbn [negb].
  unfold parseUserMessageWithContext. rewrite Hm. cbn.
  repeat split; reflexivity.
Qed.

(** After the channel closes, every [sendMessage] is refused with the
    closed-connection entry; after a channel error on an open channel,
    it is refused with the missing-user-id entry. No request is sent. *)
Theorem send_refused_after_channel_loss (m : string) (st : ChatState) :
  let closed := run_op OpClose st in
  let errored := run_op OpChannelError st in
  sendMessage m closed =
    (setIsProcessing false
       (addMessageToChat RSystem
          "Error: Cannot connect to assistant. Backend connection is closed."
          None None None closed), None) /\
  (is_open (readyState st) = true ->
   sendMessage m errored =
    (setIsProcessing false
       (addMessageToChat RSystem
          "Error: Connection established, but user ID not received yet. Please wait a moment and try again."
          None None None errored), None)).
Proof.
  split; [reflexivity|]. intros Ho. unfold sendMessage. simpl. rewrite Ho. reflexivity.
Qed.

(** Once the channel opens and [connection_established] brings a
    non-empty user id, a non-blank text is sent with that user id. *)
Theorem send_after_handshake (st : ChatState) (uid m : string) :
  uid <> "" -> String.eqb (trim m) "" = false ->
  snd (sendMessage m (run_ops [OpOpen; OpEvent (ws_connection_established uid)] st))
  = Some (mkReq m uid).
Proof.
  intros Hu Ht. unfold run_ops; simpl.
  unfold handle_event; cbn [ws_type ws_user_id ws_connection_established].
  change (String.eqb "connection_established" "connection_established") with true.
  cbn [str_truthy]. apply String.eqb_neq in Hu. rewrite Hu. cbn [negb].
  unfold sendMessage. cbn. rewrite Hu, Ht. cbn.
  destruct (parseUserMessageWithContext m) as [u [c|]]; reflexivity.
Qed.

(** When the request of [sendMessage] settles, results and suggestions
    are untouched; processing stops and the status clears unless the
    backend answered with [tool_called], which keeps the flag and shows
    "Agent processing workflow..."; at most one entry is appended, none
    only for a successful answer without a [response] text. *)
Theorem response_settles (r : ChatResponse) (st : ChatState) :
  let st' := handle_response r st in
  queryResults st' = queryResults st /\ graphSuggestions st' = graphSuggestions st /\
  (match r with
   | RespOk _ true =>
       isProcessing st' = isProcessing st /\
       currentStatus st' = Some "Agent processing workflow..."
   | _ => isProcessing st' = false /\ currentStatus st' = None
   end) /\
  List.length (messages st') =
    List.length (messages st)
    + match r with RespOk resp _ => if str_truthy resp then 1 else 0 | _ => 1 end.
Proof.
  intros st'; subst st'.
  destruct r as [t|resp tool|msg]; simpl.
  - rewrite length_app; simpl. repeat split; reflexivity.
  - destruct (str_truthy resp), tool; simpl; rewrite ?length_app; simpl;
      repeat split; try reflexivity; lia.
  - rewrite length_app; simpl. repeat split; reflexivity.
Qed.

Lemma channel_handle_event e st :
  readyState (handle_event e st) = readyState st /\
  (userId (handle_event e st) = userId st \/
   (ws_type e = "connection_established" /\ str_truthy (ws_user_id e) = true /\
    userId (handle_event e st) = ws_user_id e)).
Proof.
  unfold handle_event.
  destruct (String.eqb_spec (ws_type e) "connection_established") as [Hc|_].
  { destruct (str_truthy (ws_user_id e)) eqn:Hu; auto. }
  destruct (String.eqb (ws_type e) "status").
  { unfold on_status.
    destruct (match ws_step e with Some s => endsWith s "workflow_end" | None => false end);
      [auto|].
    destruct (opt_str_eqb (ws_status e) (Some "completed")); [|auto].
    match goal with |- context [let '(_, _) := ?x in _] => destruct x end.
    destruct (_ || _ || _); auto. }
  destruct (String.eqb (ws_type e) "classifier_info"); [destruct (nonblank _); auto|].
  destruct (String.eqb (ws_type e) "classifier_answer"); [destruct (nonblank _); auto|].
  destruct (String.eqb (ws_type e) "reasoning_summary").
  { unfold on_reasoning_summary; destruct (_ && _); auto. }
  destruct (String.eqb (ws_type e) "final_insight").
  { unfold on_final_insight. unfold handleExecutedQueries.
    destruct (ws_executed_queries e) as [l|]; [|auto].
    destruct (build_executed 0 l) as [rs ws]. cbn.
    assert (H : forall s, readyState (fold_left (fun s w => warn w s) ws s) = readyState s /\
                          userId (fold_left (fun s w => warn w s) ws s) = userId s).
    { induction ws as [|w ws IH]; intro s; simpl; [auto|]. rewrite (proj1 (IH _)), (proj2 (IH _)). auto. }
    rewrite (proj1 (H _)), (proj2 (H _)). auto. }
  destruct (String.eqb (ws_type e) "final_recommendation").
  { unfold on_final_recommendation. unfold handleExecutedQueries.
    destruct (ws_executed_queries e) as [l|]; [|auto].
    destruct (build_executed 0 l) as [rs ws]. cbn.
    assert (H : forall s, readyState (fold_left (fun s w => warn w s) ws s) = readyState s /\
                          userId (fold_left (fun s w => warn w s) ws s) = userId s).
    { induction ws as [|w ws IH]; intro s; simpl; [auto|]. rewrite (proj1 (IH _)), (proj2 (IH _)). auto. }
    rewrite (proj1 (H _)), (proj2 (H _)). auto. }
  destruct (String.eqb (ws_type e) "query_result"); [auto|].
  destruct (String.eqb (ws_type e) "routing_decision"); [auto|].
  destruct (String.eqb (ws_type e) "error"); auto.
Qed.

Lemma isProcessing_handle_event e st :
  isProcessing (handle_event e st) = isProcessing st \/
  isProcessing (handle_event e st) = false.
Proof.
  unfold handle_event.
  destruct (String.eqb (ws_type e) "connection_established"); [destruct (str_truthy _); auto|].
  destruct (String.eqb (ws_type e) "status"); [apply isProcessing_on_status|].
  destruct (String.eqb (ws_type e) "classifier_info"); [destruct (nonblank _); auto|].
  destruct (String.eqb (ws_type e) "classifier_answer"); [destruct (nonblank _); auto|].
  destruct (String.eqb (ws_type e) "reasoning_summary").
  { unfold on_reasoning_summary; destruct (_ && _); auto. }
  destruct (String.eqb (ws_type e) "final_insight").
  { unfold on_final_insight. match goal with |- context [let '(_, _) := ?x in _] => destruct x end.
    auto. }
  destruct (String.eqb (ws_type e) "final_recommendation").
  { unfold on_final_recommendation.
    match goal with |- context [let '(_, _) := ?x in _] => destruct x as [[|] ?] end; auto. }
  destruct (String.eqb (ws_type e) "query_result"); [auto|].
  destruct (String.eqb (ws_type e) "routing_decision"); [auto|].
  destruct (String.eqb (ws_type e) "error"); auto.
Qed.

Lemma turn_ready_run_op op st : turn_ready st -> turn_ready (run_op op st).
Proof.
  unfold turn_ready. intros Hinv Hp.
  destruct op as [e|m|r| | |]; simpl in *; try discriminate.
  - destruct (channel_handle_event e st) as [Hr [Hu|(_ & Ht & Hu)]]; rewrite Hr, Hu.
    + apply Hinv. destruct (isProcessing_handle_event e st) as [E|E]; congruence.
    + split; [|exact Ht]. apply Hinv. destruct (isProcessing_handle_event e st) as [E|E]; congruence.
  - revert Hp. unfold sendMessage.
    destruct (is_open (readyState st)) eqn:Ho; cbn [negb]; [|discriminate].
    destruct (str_truthy (userId st)) eqn:Hu; cbn [negb]; [|discriminate].
    destruct (String.eqb (trim m) ""); [intros _; simpl; rewrite Ho, Hu; auto|].
    destruct (parseUserMessageWithContext m) as [u [c|]]; intros _; simpl; rewrite Ho, Hu; auto.
  - revert Hp. destruct r as [t|resp tool|msg]; simpl; try discriminate.
    destruct (str_truthy resp), tool; simpl; try discriminate; exact Hinv.
Qed.

(** In every state reached from the initial state, a turn in progress
    implies that the channel is open and a user id is known. *)
Theorem turn_needs_channel (ops : list Op) :
  let st := run_ops ops initial_state in
  isProcessing st = true -> is_open (readyState st) = true /\ str_truthy (userId st) = true.
Proof.
  intros st. change (turn_ready st). subst st.
  assert (H : forall st, turn_ready st -> turn_ready (run_ops ops st)).
  { induction ops as [|op ops IH]; intros st Hst; [exact Hst|].
    rewrite run_ops_cons. apply IH, turn_ready_run_op, Hst. }
  apply H. discriminate.
Qed.

(* ------------------------------------------------------------------ *)
(** ** Further properties: normalization and traces of the viewer *)

Lemma assign_if_other b k v p c k' :
  get "columns" p = JObj c -> k' <> "columns" ->
  exists p', assign_if b k v (Some p) = Some p' /\
             get "columns" p' = JObj (if b then set k v c else c) /\
             get k' p' = get k' p.
Proof.
  intros Hc Hk. apply String.eqb_neq in Hk. destruct b; cbn [assign_if].
  - unfold assign_column. rewrite Hc. eexists; split; [reflexivity|].
    rewrite !get_set, Hk. split; reflexivity.
  - exists p. auto.
Qed.

(** For a suggestion without [columns] and not of type image, the viewer's
    normalization is decided by [chart_type] when it is a string, else by
    [type]: image gives [null], none gives the bare "none" form keeping a
    string title, and any other type a suggestion of that type. *)
Theorem normalize_outcomes (o : obj) :
  has_key "columns" o = false ->
  js_eq_str (get "type" o) "image" = false ->
  let t := if is_string (get "chart_type" o) then get "chart_type" o else get "type" o in
  (js_eq_str t "image" = true -> finalGraphSuggestionForViewer o = NNull) /\
  (js_eq_str t "none" = true ->
     finalGraphSuggestionForViewer o =
     NOut [("type", JStr "none");
           ("title", if is_string (get "title" o) then get "title" o else JUndef);
           ("columns", JObj [])]) /\
  (js_eq_str t "image" = false -> js_eq_str t "none" = false ->
     exists p, finalGraphSuggestionForViewer o = NOut p /\ get "type" p = t).
Proof.
  intros Hc Hi t.
  unfold finalGraphSuggestionForViewer. rewrite Hi.
  set (rest := omit _ o).
  set (p0 := spread _ rest).
  assert (Hr : forall k, In k ["type"; "title"; "columns"] -> has_key k rest = false).
  { intros k Hk. unfold rest. rewrite has_key_omit.
    simpl in Hk; destruct Hk as [<-|[<-|[<-|[]]]]; cbn; auto. }
  assert (C0 : get "columns" p0 = JObj []).
  { unfold p0. rewrite get_spread_notin by (apply Hr; simpl; auto). reflexivity. }
  assert (T0 : get "type" p0 = t).
  { unfold p0. rewrite get_spread_notin by (apply Hr; simpl; auto). reflexivity. }
  assert (L0 : get "title" p0 = if is_string (get "title" o) then get "title" o else JUndef).
  { unfold p0. rewrite get_spread_notin by (apply Hr; simpl; auto). reflexivity. }
  clearbody p0. clear Hr. fold t in T0.
  generalize (get "x_axis" o) as vx; generalize (get "y_axis" o) as vy;
  generalize (get "names" o) as vn; generalize (get "values" o) as vv;
  generalize (get "color_column" o) as vc. intros vc vv vn vy vx.
  assert (Step : forall b k v p c,
    get "columns" p = JObj c -> get "type" p = t ->
    get "title" p = (if is_string (get "title" o) then get "title" o else JUndef) ->
    exists p', assign_if b k v (Some p) = Some p' /\
      get "columns" p' = JObj (if b then set k v c else c) /\ get "type" p' = t /\
      get "title" p' = (if is_string (get "title" o) then get "title" o else JUndef)).
  { intros b k v p c H1 H2 H3.
    destruct (assign_if_other b k v p c "type" H1) as (p' & E & C & T); [discriminate|].
    destruct (assign_if_other b k v p c "title" H1) as (p'' & E' & _ & L); [discriminate|].
    rewrite E in E'. injection E' as <-.
    exists p'. rewrite T, L. auto. }
  destruct (Step (is_string vx) "x" vx p0 _ C0 T0 L0) as (p1 & E1 & C1 & T1 & L1). rewrite E1.
  destruct (Step (is_string vy || is_array vy) "y" vy p1 _ C1 T1 L1) as (p2 & E2 & C2 & T2 & L2). rewrite E2.
  destruct (Step (is_string vn) "names" vn p2 _ C2 T2 L2) as (p3 & E3 & C3 & T3 & L3). rewrite E3.
  destruct (Step (is_string vv) "values" vv p3 _ C3 T3 L3) as (p4 & E4 & C4 & T4 & L4). rewrite E4.
  destruct (Step (is_string vc) "color" vc p4 _ C4 T4 L4) as (p5 & E5 & C5 & T5 & L5). rewrite E5.
  rewrite T5, L5.
  split; [|split].
  - intros H. rewrite H. cbn [orb].
    destruct (js_eq_str t "none") eqn:N; [|reflexivity].
    destruct t as [| | | |s| | |]; try discriminate. cbn in H, N.
    apply String.eqb_eq in H, N. congruence.
  - intros H. rewrite H, orb_true_r. reflexivity.
  - intros H1 H2. rewrite H1, H2. cbn [orb]. eexists; split; [reflexivity|exact T5].
Qed.

(** Every Plotly trace comes from a present suggestion of a truthy type and
    a present result with rows, and has one point per data row: an x/y
    trace of type bar, line or scatter, or a pie trace. *)
Theorem plotParams_one_point_per_row (gs : option obj) (result : option QueryResult) (t : Trace) :
  plotParams gs result = Some t ->
  exists g r, gs = Some g /\ result = Some r /\ dataframe r <> [] /\
    truthy (get "type" g) = true /\
    match t with
    | XYTrace kind xs ys cs =>
        In kind ["bar"; "line"; "scatter"] /\ get "type" g = JStr kind /\
        List.length xs = List.length (dataframe r) /\
        List.length ys = List.length (dataframe r) /\
        (forall c, cs = Some c -> List.length c = List.length (dataframe r))
    | PieTrace ls vs =>
        get "type" g = JStr "pie" /\
        List.length ls = List.length (dataframe r) /\
        List.length vs = List.length (dataframe r)
    end.
Proof.
  unfold plotParams. destruct gs as [g|]; [|discriminate].
  destruct (_ || _ || _) eqn:Hty; [discriminate|].
  apply orb_false_iff in Hty as [Hty Ht]. apply negb_false_iff in Ht.
  destruct result as [r|]; [|discriminate].
  destruct (dataframe r) as [|row0 rows] eqn:Hd; [discriminate|].
  intros H. exists g, r. split; [reflexivity|]. split; [reflexivity|].
  rewrite Hd. split; [discriminate|]. split; [exact Ht|].
  destruct (js_eq_str (get "type" g) "bar" || _ || _) eqn:Hk.
  - destruct (_ || _ || _ || _); [discriminate|].
    injection H as <-.
    assert (Hs : get "type" g = JStr (js_to_string (get "type" g)) /\
                 In (js_to_string (get "type" g)) ["bar"; "line"; "scatter"]).
    { destruct (get "type" g) as [| | | |s| | |]; try discriminate. cbn.
      repeat (apply orb_true_iff in Hk as [Hk|Hk]); apply String.eqb_eq in Hk; subst;
        simpl; auto. }
    destruct Hs as [Hs1 Hs2].
    refine (conj Hs2 (conj Hs1 (conj _ (conj _ _)))); [simpl; rewrite length_map; reflexivity|simpl; rewrite length_map; reflexivity|].
    intros c Hc. destruct (_ && _); [|discriminate Hc]. injection Hc as <-.
    simpl; rewrite length_map; reflexivity.
  - destruct (js_eq_str (get "type" g) "pie") eqn:Hp; [|discriminate H].
    destruct (_ || _ || _ || _); [discriminate H|].
    injection H as <-.
    refine (conj _ (conj _ _)); [|simpl; rewrite length_map; reflexivity|simpl; rewrite length_map; reflexivity].
    destruct (get "type" g) as [| | | |s| | |]; try discriminate. cbn in Hp.
    apply String.eqb_eq in Hp; subst; reflexivity.
Qed.

(** The hook's mapping followed by the viewer's normalization never
    throws, whatever the backend suggestion. *)
Theorem normalize_total (raw : obj) : normalize raw <> NThrow.
Proof. unfold normalize. apply finalGraph_mapped_defined. Qed.

(* ------------------------------------------------------------------ *)
(** ** The further properties on concrete inputs *)

Lemma clampIndex_range_witness :
  (0 <= 5)%Z /\ clampIndex 2 5 = 1%Z /\ clampIndex 2 (clampIndex 2 5) = clampIndex 2 5.
Proof.
  assert (H0 : (0 <= 5)%Z) by lia.
  split; [exact H0|]. split; [reflexivity|].
  destruct (clampIndex_range [sample_row; sample_row] 5 H0) as (_ & _ & _ & H).
  exact H.
Defined.

Lemma pagination_steps_witness :
  (0 <= 1 < 3)%Z /\ handlePrev (handleNext 3 1) = 1%Z.
Proof.
  assert (H0 : (0 <= 1 < 3)%Z) by lia.
  split; [exact H0|].
  destruct (pagination_steps 3 1 H0) as (_ & _ & H & _). apply H. lia.
Defined.

Lemma dataSource_in_results_witness :
  dataSourceForCurrentGraph (Some bar_suggestion) [zero_revenue_result]
    = Some (Some zero_revenue_result) /\
  In zero_revenue_result [zero_revenue_result].
Proof.
  assert (E : dataSourceForCurrentGraph (Some bar_suggestion) [zero_revenue_result]
                = Some (Some zero_revenue_result)) by (vm_compute; reflexivity).
  split; [exact E|].
  apply (proj1 (dataSource_in_results _ _ _ E)). reflexivity.
Defined.

Lemma dataSource_mapped_witness :
  js_eq_str (get "type" (mapSuggestion bar_suggestion)) "image" = false /\
  dataSourceForCurrentGraph (Some (mapSuggestion bar_suggestion)) [zero_revenue_result]
    = Some (Some zero_revenue_result).
Proof.
  assert (Hty : js_eq_str (get "type" (mapSuggestion bar_suggestion)) "image" = false)
    by (vm_compute; reflexivity).
  split; [exact Hty|].
  pose proof (dataSource_mapped bar_suggestion [zero_revenue_result] Hty) as H.
  cbv zeta in H. rewrite H. vm_compute. reflexivity.
Defined.

Lemma render_reachable_non_image_witness :
  (forall g, currentRawGraphSuggestion
               (graphSuggestions (run_ops [OpEvent ws_final_with_chart] initial_state)) 0 = Some g ->
             js_eq_str (get "type" g) "image" = false) /\
  renderGraph (queryResults (run_ops [OpEvent ws_final_with_chart] initial_state))
    (graphSuggestions (run_ops [OpEvent ws_final_with_chart] initial_state))
    (isProcessing (run_ops [OpEvent ws_final_with_chart] initial_state)) 0 <> None.
Proof.
  assert (H : forall g, currentRawGraphSuggestion
               (graphSuggestions (run_ops [OpEvent ws_final_with_chart] initial_state)) 0 = Some g ->
             js_eq_str (get "type" g) "image" = false).
  { intros g Hg. vm_compute in Hg. injection Hg as <-. vm_compute. reflexivity. }
  split; [exact H|]. exact (render_reachable_non_image [OpEvent ws_final_with_chart] 0 H).
Defined.

(** The image path with a plain-object title: the header throws. *)
Lemma render_image_object_title :
  renderGraph [zero_revenue_result]
    [set "title" (JObj [("text", JStr "Trend")]) image_suggestion] false 0 = None.
Proof. vm_compute. reflexivity. Qed.

Lemma render_image_suggestion_witness :
  currentRawGraphSuggestion [image_suggestion] 0 = Some image_suggestion /\
  js_eq_str (get "type" image_suggestion) "image" = true /\
  renderGraph [zero_revenue_result] [image_suggestion] false 0 = Some (Viewer CImage) /\
  exists r, dataSourceForCurrentGraph (Some image_suggestion) [zero_revenue_result] = Some r /\
    Viewer CImage = Viewer (if match r with Some q => str_truthy (error q) | None => false end
                            then CErrorBox else CImage).
Proof.
  assert (H1 : currentRawGraphSuggestion [image_suggestion] 0 = Some image_suggestion)
    by reflexivity.
  assert (H2 : js_eq_str (get "type" image_suggestion) "image" = true) by reflexivity.
  assert (H3 : renderGraph [zero_revenue_result] [image_suggestion] false 0
               = Some (Viewer CImage)) by (vm_compute; reflexivity).
  split; [exact H1|]. split; [exact H2|]. split; [exact H3|].
  exact (render_image_suggestion _ _ _ _ _ _ H1 H2 H3).
Defined.

Lemma processing_only_set_by_send_witness :
  isProcessing (run_op (OpSend "hi") ready_state) = true /\
  (isProcessing ready_state = true \/
   exists m, OpSend "hi" = OpSend m /\ snd (sendMessage m ready_state) <> None).
Proof.
  assert (H : isProcessing (run_op (OpSend "hi") ready_state) = true)
    by (vm_compute; reflexivity).
  split; [exact H|]. exact (processing_only_set_by_send _ _ H).
Defined.

Lemma terminal_events_end_turn_witness :
  isProcessing (handle_event (ws_empty "error") ready_state) = false /\
  currentStatus (handle_event (ws_empty "error") ready_state) = None.
Proof.
  apply terminal_events_end_turn. left. simpl. right; right; left. reflexivity.
Defined.

Lemma final_events_mapped_suggestions_witness :
  ws_type ws_final_with_chart = "final_insight" /\
  graphSuggestions (handle_event ws_final_with_chart initial_state)
    = [mapSuggestion bar_suggestion].
Proof.
  split; [reflexivity|].
  rewrite final_events_mapped_suggestions by (left; reflexivity). reflexivity.
Defined.

Lemma query_result_idempotent_witness :
  ws_type (ws_query_result (Some [sample_row])) = "query_result" /\
  handle_event (ws_query_result (Some [sample_row]))
    (handle_event (ws_query_result (Some [sample_row])) initial_state)
  = handle_event (ws_query_result (Some [sample_row])) initial_state.
Proof.
  split; [reflexivity|]. apply query_result_idempotent. reflexivity.
Defined.

Lemma status_event_effect_witness :
  ws_type ws_status_completed = "status" /\
  exists c q, messages (handle_event ws_status_completed initial_state) =
    (messages initial_state
     ++ [mkMsg (next_id initial_state) RMilestone c None None q (Some "execute_queries")])%list.
Proof.
  split; [reflexivity|].
  destruct (status_event_effect ws_status_completed initial_state eq_refl)
    as (_ & _ & _ & _ & H).
  exact H.
Defined.

Lemma sendMessage_plain_witness :
  is_open (readyState ready_state) = true /\ str_truthy (userId ready_state) = true /\
  String.eqb (trim " hi ") "" = false /\
  includes " hi " displayContextStartMarker && includes " hi " queryStartMarker = false /\
  snd (sendMessage " hi " ready_state) = Some (mkReq " hi " "u") /\
  messages (fst (sendMessage " hi " ready_state)) =
    (messages ready_state ++ [mkMsg (next_id ready_state) RUser " hi " None None None None])%list.
Proof.
  assert (H1 : is_open (readyState ready_state) = true) by reflexivity.
  assert (H2 : str_truthy (userId ready_state) = true) by reflexivity.
  assert (H3 : String.eqb (trim " hi ") "" = false) by (vm_compute; reflexivity).
  assert (H4 : includes " hi " displayContextStartMarker && includes " hi " queryStartMarker
               = false) by (vm_compute; reflexivity).
  pose proof (sendMessage_plain " hi " ready_state H1 H2 H3 H4) as H.
  do 4 (split; [assumption|]).
  destruct (sendMessage " hi " ready_state) as [st' req].
  destruct H as (Hm & _ & _ & _ & _ & _ & Hr). split; [exact Hr|exact Hm].
Defined.

Lemma send_refused_after_channel_loss_witness :
  is_open (readyState ready_state) = true /\
  snd (sendMessage "hi" (run_op OpChannelError ready_state)) = None /\
  snd (sendMessage "hi" (run_op OpClose ready_state)) = None.
Proof.
  assert (Ho : is_open (readyState ready_state) = true) by reflexivity.
  split; [exact Ho|].
  destruct (send_refused_after_channel_loss "hi" ready_state) as [Hc He].
  rewrite (He Ho), Hc. split; reflexivity.
Defined.

Lemma send_after_handshake_witness :
  "u" <> "" /\ String.eqb (trim "hi") "" = false /\
  snd (sendMessage "hi" (run_ops [OpOpen; OpEvent (ws_connection_established "u")] initial_state))
  = Some (mkReq "hi" "u").
Proof.
  assert (Hu : "u" <> "") by discriminate.
  assert (Ht : String.eqb (trim "hi") "" = false) by (vm_compute; reflexivity).
  split; [exact Hu|]. split; [exact Ht|].
  exact (send_after_handshake initial_state "u" "hi" Hu Ht).
Defined.

Lemma normalize_outcomes_witness :
  has_key "columns" chart_type_image_suggestion = false /\
  js_eq_str (get "type" chart_type_image_suggestion) "image" = false /\
  finalGraphSuggestionForViewer chart_type_image_suggestion = NNull.
Proof.
  assert (H1 : has_key "columns" chart_type_image_suggestion = false) by reflexivity.
  assert (H2 : js_eq_str (get "type" chart_type_image_suggestion) "image" = false)
    by reflexivity.
  split; [exact H1|]. split; [exact H2|].
  apply (proj1 (normalize_outcomes chart_type_image_suggestion H1 H2)). reflexivity.
Defined.

Lemma plotParams_one_point_per_row_witness :
  plotParams (Some bar_suggestion) (Some two_row_result)
    = Some (XYTrace "bar" [JStr "2024-01"; JStr "2024-02"] [JNum 5; JNum 7] None) /\
  exists g r, Some bar_suggestion = Some g /\ Some two_row_result = Some r /\
    dataframe r <> [] /\ truthy (get "type" g) = true /\
    (In "bar" ["bar"; "line"; "scatter"] /\ get "type" g = JStr "bar" /\
     List.length [JStr "2024-01"; JStr "2024-02"] = List.length (dataframe r) /\
     List.length [JNum 5; JNum 7] = List.length (dataframe r) /\
     (forall c : list jsval, None = Some c -> List.length c = List.length (dataframe r))).
Proof.
  assert (H : plotParams (Some bar_suggestion) (Some two_row_result)
    = Some (XYTrace "bar" [JStr "2024-01"; JStr "2024-02"] [JNum 5; JNum 7] None))
    by (vm_compute; reflexivity).
  split; [exact H|]. exact (plotParams_one_point_per_row _ _ _ H).
Defined.

Lemma normalize_total_witness : normalize bar_suggestion <> NThrow.
Proof. apply normalize_total. Defined.

Lemma turn_needs_channel_witness :
  let st := run_ops [OpOpen; OpEvent (ws_connection_established "u"); OpSend "hi"]
              initial_state in
  isProcessing st = true /\ is_open (readyState st) = true /\ str_truthy (userId st) = true.
Proof.
  intro st.
  assert (H : isProcessing st = true) by (vm_compute; reflexivity).
  split; [exact H|]. exact (turn_needs_channel _ H).
Defined.
